(** * OpenReplay MCP server: the tool dispatcher and its request translation

    The repository holds two variants of one server class, [OpenReplayMCP]:
    - [src/index.ts], which talks to the remote API with a bearer token
      (the full-access mode), modelled in [Module FullAccess];
    - a second copy of the file that sends the raw organisation API key
      (the constrained mode), modelled in [Module ApiKey].

    Both register a list of tools and a call handler.  The call handler is a
    [switch] over the tool name inside a [try]/[catch]; every case awaits one
    private method which builds at most one HTTP request and wraps the
    response body, pretty printed, into a single text item. *)

From Stdlib Require Import ZArith List String Ascii Bool Lia DecimalString.
Import ListNotations.
Local Open Scope string_scope.
Local Open Scope Z_scope.
Set Warnings "-register-all".

(** ** JavaScript values *)

Module JS.

(** Data that crosses the wire: what [JSON.parse] can produce.  An object is
    the list of its own properties in insertion order.  A number is either an
    integer that a double holds exactly and prints in plain decimal
    ([JNum]), or any other double, kept as the text [Number::toString]
    gives for it ([JOther], never zero). *)
Inductive json : Type :=
| JNull
| JBool (b : bool)
| JNum (n : Z)
| JOther (repr : string)
| JStr (s : string)
| JArr (items : list json)
| JObj (fields : list (string * json)).

(** A value held in a local variable or a property of an object literal:
    wire data, [undefined], or the [NaN] that [getTime] gives for an
    invalid date. *)
Inductive value : Type :=
| VUndefined
| VNaN
| VJson (j : json).

Coercion VJson : json >-> value.

(** ToBoolean. *)
Definition truthy (v : value) : bool :=
  match v with
  | VUndefined => false
  | VNaN => false
  | VJson JNull => false
  | VJson (JBool b) => b
  | VJson (JNum n) => negb (n =? 0)
  | VJson (JOther _) => true
  | VJson (JStr s) => negb (String.eqb s EmptyString)
  | VJson (JArr _) => true
  | VJson (JObj _) => true
  end.

(** Own-property lookup on an object's property list. *)
Fixpoint lookup (k : string) (fields : list (string * json)) : option json :=
  match fields with
  | [] => None
  | (k', v) :: rest => if String.eqb k k' then Some v else lookup k rest
  end.

Definition nl : string := String (ascii_of_nat 10) EmptyString.
Definition dquote : string := String (ascii_of_nat 34) EmptyString.
Definition backslash : string := String (ascii_of_nat 92) EmptyString.

Fixpoint join (sep : string) (parts : list string) : string :=
  match parts with
  | [] => EmptyString
  | [p] => p
  | p :: rest => p ++ sep ++ join sep rest
  end.

(** Number::toString on an integer below 10^21 in magnitude. *)
Definition decimal (n : Z) : string := NilZero.string_of_int (Z.to_int n).

(** The list of the values when every element has one. *)
Fixpoint all_some {A} (l : list (option A)) : option (list A) :=
  match l with
  | [] => Some []
  | Some a :: rest => option_map (cons a) (all_some rest)
  | None :: _ => None
  end.

(** ToString, as a template literal applies it to an interpolated value;
    [None] when the conversion throws a TypeError.  An object is converted
    by its [toString] method: a parsed object inherits the one that gives
    "[object Object]", unless it has a key [toString] of its own, whose
    value is no function, and then the conversion throws.  An array joins
    the conversions of its elements, with nothing for [null]. *)
Fixpoint json_toString (j : json) : option string :=
  match j with
  | JNull => Some "null"
  | JBool true => Some "true"
  | JBool false => Some "false"
  | JNum n => Some (decimal n)
  | JOther repr => Some repr
  | JStr s => Some s
  | JArr items =>
      option_map (join ",")
        (all_some (map (fun x => match x with
                                 | JNull => Some EmptyString
                                 | _ => json_toString x
                                 end) items))
  | JObj fields =>
      match lookup "toString" fields with
      | Some _ => None
      | None => Some "[object Object]"
      end
  end.

Definition toString (v : value) : option string :=
  match v with
  | VUndefined => Some "undefined"
  | VNaN => Some "NaN"
  | VJson j => json_toString j
  end.

(** *** JSON.stringify(data, null, 2) *)

Definition hex_digit (n : nat) : string :=
  String (match n with
          | 0 => "0" | 1 => "1" | 2 => "2" | 3 => "3" | 4 => "4" | 5 => "5"
          | 6 => "6" | 7 => "7" | 8 => "8" | 9 => "9" | 10 => "a"
          | 11 => "b" | 12 => "c" | 13 => "d" | 14 => "e" | _ => "f"
          end)%char%nat EmptyString.

(** QuoteJSONString on one code unit. *)
Definition escape_char (c : ascii) : string :=
  let n := nat_of_ascii c in
  if Nat.eqb n 34 then backslash ++ dquote
  else if Nat.eqb n 92 then backslash ++ backslash
  else if Nat.eqb n 8 then backslash ++ "b"
  else if Nat.eqb n 9 then backslash ++ "t"
  else if Nat.eqb n 10 then backslash ++ "n"
  else if Nat.eqb n 12 then backslash ++ "f"
  else if Nat.eqb n 13 then backslash ++ "r"
  else if Nat.ltb n 32
       then backslash ++ "u00" ++ hex_digit (Nat.div n 16) ++ hex_digit (Nat.modulo n 16)
  else String c EmptyString.

Fixpoint escape (s : string) : string :=
  match s with
  | EmptyString => EmptyString
  | String c rest => escape_char c ++ escape rest
  end.

Definition quote (s : string) : string := dquote ++ escape s ++ dquote.

(** SerializeJSONProperty with the gap of two spaces; [indent] is the
    indentation reached so far. *)
Fixpoint stringify (indent : string) (j : json) : string :=
  match j with
  | JNull => "null"
  | JBool true => "true"
  | JBool false => "false"
  | JNum n => decimal n
  | JOther repr => repr
  | JStr s => quote s
  | JArr [] => "[]"
  | JArr items =>
      let stepback := indent in
      let indent := indent ++ "  " in
      "[" ++ nl ++ indent
          ++ join ("," ++ nl ++ indent) (map (stringify indent) items)
          ++ nl ++ stepback ++ "]"
  | JObj [] => "{}"
  | JObj fields =>
      let stepback := indent in
      let indent := indent ++ "  " in
      "{" ++ nl ++ indent
          ++ join ("," ++ nl ++ indent)
               (map (fun kv => quote (fst kv) ++ ": " ++ stringify indent (snd kv))
                    fields)
          ++ nl ++ stepback ++ "}"
  end.

Definition JSON_stringify (data : json) : string := stringify EmptyString data.

(** *** Date.prototype.toISOString *)

Definition pad (width : nat) (n : Z) : string :=
  let digits := decimal n in
  let fix zeros (k : nat) : string :=
    match k with
    | O => EmptyString
    | S k' => "0" ++ zeros k'
    end in
  zeros (width - String.length digits)%nat ++ digits.

(** The Gregorian year, month and day of a day number counted from
    1970-01-01. *)
Definition civil_from_days (days : Z) : Z * Z * Z :=
  let z := days + 719468 in
  let era := z / 146097 in
  let doe := z - era * 146097 in
  let yoe := (doe - doe / 1460 + doe / 36524 - doe / 146096) / 365 in
  let doy := doe - (365 * yoe + yoe / 4 - yoe / 100) in
  let mp := (5 * doy + 2) / 153 in
  let d := doy - (153 * mp + 2) / 5 + 1 in
  let m := if mp <? 10 then mp + 3 else mp - 9 in
  let y := yoe + era * 400 + (if m <=? 2 then 1 else 0) in
  (y, m, d).

Definition iso_year (y : Z) : string :=
  if (0 <=? y) && (y <=? 9999) then pad 4 y
  else if y <? 0 then "-" ++ pad 6 (- y)
  else "+" ++ pad 6 y.

(** [new Date(t).toISOString()] for a time value [t] in milliseconds since
    the epoch.  [Date.now()] only yields time values inside the range of
    valid dates, for which the method does not throw. *)
Definition toISOString (t : Z) : string :=
  let days := t / 86400000 in
  let ms := t mod 86400000 in
  let '(y, m, d) := civil_from_days days in
  iso_year y ++ "-" ++ pad 2 m ++ "-" ++ pad 2 d
    ++ "T" ++ pad 2 (ms / 3600000)
    ++ ":" ++ pad 2 ((ms / 60000) mod 60)
    ++ ":" ++ pad 2 ((ms / 1000) mod 60)
    ++ "." ++ pad 3 (ms mod 1000) ++ "Z".

End JS.

Import JS.

(** ** The HTTP client, the clock and the effects of a handler *)

Inductive Method : Type := GET | POST.

(** What one call of [this.api.get] or [this.api.post] sends: the verb, the
    URL relative to the configured base URL, and the [params] object (GET)
    or the body (POST) when the call passes one. *)
Record OutboundRequest : Type := {
  method : Method;
  path : string;
  payload : option (list (string * value))
}.

(** How the awaited promise settles: with [response.data], which axios makes
    from the response body (parsed JSON, or the body text itself), or with
    an error whose [message] may be missing. *)
Inductive outcome : Type :=
| Resolved (data : json)
| Rejected (message : option string).

Inductive exn : Type :=
| McpError (code : Z) (message : string)
| TypeError (message : string)
| AxiosError (message : option string).

Definition MethodNotFound : Z := -32601.

Definition instanceof_McpError (error : exn) : bool :=
  match error with
  | McpError _ _ => true
  | _ => false
  end.

(** [error.message], as the [catch] clause reads it on an error that is not
    an [McpError]. *)
Definition message_of (error : exn) : option string :=
  match error with
  | McpError _ msg => Some msg
  | TypeError msg => Some msg
  | AxiosError msg => msg
  end.

(** The surroundings of a call: the wall clock as the sequence of values its
    successive readings give, how many readings were taken, the remote
    service (which may answer by the history of requests), and the requests
    sent so far, oldest first. *)
Record world : Type := {
  clock : nat -> Z;
  reads : nat;
  remote : list OutboundRequest -> OutboundRequest -> outcome;
  sent : list OutboundRequest
}.

Inductive completion (A : Type) : Type :=
| Returned (a : A)
| Thrown (error : exn).
Arguments Returned {A} a.
Arguments Thrown {A} error.

(** An async function body: it runs in a world and either returns or throws. *)
Definition M (A : Type) : Type := world -> completion A * world.

Definition ret {A} (a : A) : M A := fun w => (Returned a, w).

Definition throw {A} (error : exn) : M A := fun w => (Thrown error, w).

Definition bind {A B} (m : M A) (k : A -> M B) : M B :=
  fun w =>
    match m w with
    | (Returned a, w') => k a w'
    | (Thrown error, w') => (Thrown error, w')
    end.

Definition try_catch {A} (body : M A) (handler : exn -> M A) : M A :=
  fun w =>
    match body w with
    | (Returned a, w') => (Returned a, w')
    | (Thrown error, w') => handler error w'
    end.

Declare Scope js_scope.
Delimit Scope js_scope with js.
Notation "x <- m ;; k" := (bind m (fun x => k))
  (at level 61, m at next level, right associativity) : js_scope.
Local Open Scope js_scope.

(** [Date.now()], and equally [new Date()]: one reading of the clock. *)
Definition Date_now : M Z :=
  fun w =>
    (Returned (clock w (reads w)),
     {| clock := clock w; reads := S (reads w);
        remote := remote w; sent := sent w |}).

(** Awaiting one request of the axios instance; the result is
    [response.data]. *)
Definition request (r : OutboundRequest) : M json :=
  fun w =>
    let w' := {| clock := clock w; reads := reads w;
                 remote := remote w; sent := sent w ++ [r] |} in
    match remote w (sent w) r with
    | Resolved data => (Returned data, w')
    | Rejected message => (Thrown (AxiosError message), w')
    end.

Definition api_get (url : string) (params : option (list (string * value)))
  : M json :=
  request {| method := GET; path := url; payload := params |}.

Definition api_post (url : string) (data : list (string * value)) : M json :=
  request {| method := POST; path := url; payload := Some data |}.

(** The [arguments] member of a call request: absent, or an object. *)
Definition arguments : Type := option (list (string * json)).

Definition property (k : string) (fields : list (string * json)) : value :=
  match lookup k fields with
  | Some j => VJson j
  | None => VUndefined
  end.

(** [args.k]. *)
Definition getProp (args : arguments) (k : string) : M value :=
  match args with
  | None =>
      throw (TypeError ("Cannot read properties of undefined (reading '" ++ k ++ "')"))
  | Some fields => ret (property k fields)
  end.

(** [const { k, ... } = args]: the object whose properties are then read. *)
Definition destructure (args : arguments) (k : string)
  : M (list (string * json)) :=
  match args with
  | None =>
      throw (TypeError ("Cannot destructure property '" ++ k
                          ++ "' of 'args' as it is undefined."))
  | Some fields => ret fields
  end.

(** [${v}] inside a template literal. *)
Definition ToString (v : value) : M string :=
  match toString v with
  | Some s => ret s
  | None => throw (TypeError "Cannot convert object to primitive value")
  end.

(** [a || b], with [b] evaluated only when [a] is falsy. *)
Definition or_else (a : M value) (b : M value) : M value :=
  v <- a ;; if truthy v then ret v else b.
Notation "a <||> b" := (or_else a b) (at level 50, left associativity) : js_scope.

(** [s || d] on a string that may be missing: the empty string is falsy. *)
Definition or_string (s : option string) (d : string) : string :=
  match s with
  | Some (String c rest) => String c rest
  | _ => d
  end.

(** The result envelope of a tool call. *)
Record ContentItem : Type := { type : string; text : string }.
Record ToolResult : Type := { content : list ContentItem }.

(** One entry of the list the ListTools handler returns: the name, the
    names of the declared properties and the [required] list where the
    schema has one.  Descriptions and property types are display data. *)
Record ToolDefinition : Type := {
  name : string;
  properties : list string;
  required : option (list string)
}.

(** A tool name is declared when the registry has an entry of that name. *)
Definition declared (tools : list ToolDefinition) (tool : string) : bool :=
  existsb (fun t => String.eqb tool (name t)) tools.

(** The requests a computation adds to the log when run in [w]. *)
Definition issued {A} (m : M A) (w : world) : list OutboundRequest :=
  skipn (List.length (sent w)) (sent (snd (m w))).

Definition result_of {A} (m : M A) (w : world) : completion A := fst (m w).

(** ** The full-access server ([src/index.ts]) *)

Module FullAccess.
Section Server.

(** The project identifier read from the environment at start-up. *)
Variable OPENREPLAY_PROJECT_ID : string.

Definition tools : list ToolDefinition := [
  {| name := "search_sessions";
     properties := ["startDate"; "endDate"; "filters"; "limit"; "offset"; "sort"];
     required := Some [] |};
  {| name := "get_session_details";
     properties := ["sessionId"];
     required := Some ["sessionId"] |};
  {| name := "get_session_events";
     properties := ["sessionId"; "eventTypes"; "startTime"; "endTime"];
     required := Some ["sessionId"] |};
  {| name := "aggregate_sessions";
     properties := ["startDate"; "endDate"; "metrics"; "groupBy"; "filters"];
     required := Some ["metrics"] |};
  {| name := "get_user_journey";
     properties := ["userId"; "startDate"; "endDate"; "includeEvents"];
     required := Some ["userId"] |};
  {| name := "get_errors_issues";
     properties := ["startDate"; "endDate"; "errorTypes"; "minOccurrences"; "groupBy"];
     required := None |};
  {| name := "get_funnel_analysis";
     properties := ["steps"; "startDate"; "endDate"; "filters"];
     required := Some ["steps"] |};
  {| name := "get_performance_metrics";
     properties := ["startDate"; "endDate"; "metrics"; "groupBy"; "percentiles"];
     required := Some ["metrics"] |};
  {| name := "execute_custom_query";
     properties := ["query"; "parameters"];
     required := Some ["query"] |}
].

Definition searchSessions (args : arguments) : M ToolResult :=
  startDate <- getProp args "startDate"
      <||> (now <- Date_now ;;
            ret (VJson (JStr (toISOString (now - 7 * 24 * 60 * 60 * 1000))))) ;;
  endDate <- getProp args "endDate"
      <||> (now <- Date_now ;; ret (VJson (JStr (toISOString now)))) ;;
  filters <- getProp args "filters" <||> ret (VJson (JArr [])) ;;
  limit <- getProp args "limit" <||> ret (VJson (JNum 50)) ;;
  offset <- getProp args "offset" <||> ret (VJson (JNum 0)) ;;
  sort <- getProp args "sort"
      <||> ret (VJson (JObj [("field", JStr "startedAt"); ("order", JStr "desc")])) ;;
  response <- api_post ("/v1/projects/" ++ OPENREPLAY_PROJECT_ID ++ "/sessions/search")
      [("startDate", startDate); ("endDate", endDate); ("filters", filters);
       ("limit", limit); ("offset", offset); ("sort", sort)] ;;
  ret {| content := [ {| type := "text"; text := JSON_stringify response |} ] |}.

Definition getSessionDetails (args : arguments) : M ToolResult :=
  fields <- destructure args "sessionId" ;;
  let sessionId := property "sessionId" fields in
  sessionId <- ToString sessionId ;;
  response <- api_get ("/v1/projects/" ++ OPENREPLAY_PROJECT_ID ++ "/sessions/"
                         ++ sessionId) None ;;
  ret {| content := [ {| type := "text"; text := JSON_stringify response |} ] |}.

Definition getSessionEvents (args : arguments) : M ToolResult :=
  fields <- destructure args "sessionId" ;;
  let sessionId := property "sessionId" fields in
  let eventTypes := property "eventTypes" fields in
  let startTime := property "startTime" fields in
  let endTime := property "endTime" fields in
  sessionId <- ToString sessionId ;;
  response <- api_get ("/v1/projects/" ++ OPENREPLAY_PROJECT_ID ++ "/sessions/"
                         ++ sessionId ++ "/events")
      (Some [("eventTypes", eventTypes); ("startTime", startTime); ("endTime", endTime)]) ;;
  ret {| content := [ {| type := "text"; text := JSON_stringify response |} ] |}.

Definition aggregateSessions (args : arguments) : M ToolResult :=
  startDate <- getProp args "startDate"
      <||> (now <- Date_now ;;
            ret (VJson (JStr (toISOString (now - 7 * 24 * 60 * 60 * 1000))))) ;;
  endDate <- getProp args "endDate"
      <||> (now <- Date_now ;; ret (VJson (JStr (toISOString now)))) ;;
  metrics <- getProp args "metrics" ;;
  groupBy <- getProp args "groupBy" <||> ret (VJson (JArr [])) ;;
  filters <- getProp args "filters" <||> ret (VJson (JArr [])) ;;
  response <- api_post ("/v1/projects/" ++ OPENREPLAY_PROJECT_ID ++ "/sessions/aggregate")
      [("startDate", startDate); ("endDate", endDate); ("metrics", metrics);
       ("groupBy", groupBy); ("filters", filters)] ;;
  ret {| content := [ {| type := "text"; text := JSON_stringify response |} ] |}.

Definition getUserJourney (args : arguments) : M ToolResult :=
  fields <- destructure args "userId" ;;
  let userId := property "userId" fields in
  let startDate := property "startDate" fields in
  let endDate := property "endDate" fields in
  let includeEvents := property "includeEvents" fields in
  userId <- ToString userId ;;
  response <- api_get ("/v1/projects/" ++ OPENREPLAY_PROJECT_ID ++ "/users/"
                         ++ userId ++ "/journey")
      (Some [("startDate", startDate); ("endDate", endDate);
             ("includeEvents", includeEvents)]) ;;
  ret {| content := [ {| type := "text"; text := JSON_stringify response |} ] |}.

Definition getErrorsIssues (args : arguments) : M ToolResult :=
  startDate <- getProp args "startDate"
      <||> (now <- Date_now ;;
            ret (VJson (JStr (toISOString (now - 7 * 24 * 60 * 60 * 1000))))) ;;
  endDate <- getProp args "endDate"
      <||> (now <- Date_now ;; ret (VJson (JStr (toISOString now)))) ;;
  errorTypes <- getProp args "errorTypes" <||> ret (VJson (JArr [])) ;;
  minOccurrences <- getProp args "minOccurrences" <||> ret (VJson (JNum 1)) ;;
  groupBy <- getProp args "groupBy" <||> ret (VJson (JStr "message")) ;;
  response <- api_post ("/v1/projects/" ++ OPENREPLAY_PROJECT_ID ++ "/errors/search")
      [("startDate", startDate); ("endDate", endDate); ("errorTypes", errorTypes);
       ("minOccurrences", minOccurrences); ("groupBy", groupBy)] ;;
  ret {| content := [ {| type := "text"; text := JSON_stringify response |} ] |}.

Definition getFunnelAnalysis (args : arguments) : M ToolResult :=
  steps <- getProp args "steps" ;;
  startDate <- getProp args "startDate"
      <||> (now <- Date_now ;;
            ret (VJson (JStr (toISOString (now - 7 * 24 * 60 * 60 * 1000))))) ;;
  endDate <- getProp args "endDate"
      <||> (now <- Date_now ;; ret (VJson (JStr (toISOString now)))) ;;
  filters <- getProp args "filters" <||> ret (VJson (JArr [])) ;;
  response <- api_post ("/v1/projects/" ++ OPENREPLAY_PROJECT_ID ++ "/funnels/analyze")
      [("steps", steps); ("startDate", startDate); ("endDate", endDate);
       ("filters", filters)] ;;
  ret {| content := [ {| type := "text"; text := JSON_stringify response |} ] |}.

Definition getPerformanceMetrics (args : arguments) : M ToolResult :=
  startDate <- getProp args "startDate"
      <||> (now <- Date_now ;;
            ret (VJson (JStr (toISOString (now - 7 * 24 * 60 * 60 * 1000))))) ;;
  endDate <- getProp args "endDate"
      <||> (now <- Date_now ;; ret (VJson (JStr (toISOString now)))) ;;
  metrics <- getProp args "metrics" ;;
  groupBy <- getProp args "groupBy" <||> ret (VJson (JArr [])) ;;
  percentiles <- getProp args "percentiles"
      <||> ret (VJson (JArr [JNum 50; JNum 75; JNum 90; JNum 95; JNum 99])) ;;
  response <- api_post ("/v1/projects/" ++ OPENREPLAY_PROJECT_ID ++ "/performance/metrics")
      [("startDate", startDate); ("endDate", endDate); ("metrics", metrics);
       ("groupBy", groupBy); ("percentiles", percentiles)] ;;
  ret {| content := [ {| type := "text"; text := JSON_stringify response |} ] |}.

Definition executeCustomQuery (args : arguments) : M ToolResult :=
  fields <- destructure args "query" ;;
  let query := property "query" fields in
  parameters <- ret (property "parameters" fields) <||> ret (VJson (JObj [])) ;;
  response <- api_post ("/v1/projects/" ++ OPENREPLAY_PROJECT_ID ++ "/query")
      [("query", query); ("parameters", parameters)] ;;
  ret {| content := [ {| type := "text"; text := JSON_stringify response |} ] |}.

(** The handler registered for [CallToolRequestSchema], applied to
    [request.params.name] and [request.params.arguments]. *)
Definition handle (name : string) (args : arguments) : M ToolResult :=
  try_catch
    (if String.eqb name "search_sessions" then searchSessions args
     else if String.eqb name "get_session_details" then getSessionDetails args
     else if String.eqb name "get_session_events" then getSessionEvents args
     else if String.eqb name "aggregate_sessions" then aggregateSessions args
     else if String.eqb name "get_user_journey" then getUserJourney args
     else if String.eqb name "get_errors_issues" then getErrorsIssues args
     else if String.eqb name "get_funnel_analysis" then getFunnelAnalysis args
     else if String.eqb name "get_performance_metrics" then getPerformanceMetrics args
     else if String.eqb name "execute_custom_query" then executeCustomQuery args
     else throw (McpError MethodNotFound ("Unknown tool: " ++ name)))
    (fun error =>
       if instanceof_McpError error then throw error
       else ret {| content := [ {| type := "text";
                     text := "Error: " ++ or_string (message_of error)
                                                    "Unknown error occurred" |} ] |}).

End Server.
End FullAccess.

(** ** The API-key server (the second copy of the server file) *)

Module ApiKey.
Section Server.

(** The project key read from the environment at start-up. *)
Variable OPENREPLAY_PROJECT_KEY : string.

(** What [new Date(v).getTime()] gives when it gives a value: the runtime's
    date parser applied to a caller's value; a number of milliseconds, or
    [NaN]. *)
Variable Date_getTime : value -> value.

(** [new Date(v).getTime()].  The constructor first converts [v] to a
    primitive, which throws a TypeError exactly when [ToString] does. *)
Definition new_Date_getTime (v : value) : M value :=
  match toString v with
  | Some _ => ret (Date_getTime v)
  | None => throw (TypeError "Cannot convert object to primitive value")
  end.

Definition tools : list ToolDefinition := [
  {| name := "list_projects";
     properties := [];
     required := Some [] |};
  {| name := "get_user_sessions";
     properties := ["userId"; "startDate"; "endDate"];
     required := Some ["userId"] |};
  {| name := "search_sessions";
     properties := ["userId"; "startDate"; "endDate"; "filters"; "limit"; "offset"; "sort"];
     required := Some [] |};
  {| name := "get_session_details";
     properties := ["sessionId"];
     required := Some ["sessionId"] |};
  {| name := "get_session_events";
     properties := ["sessionId"; "eventTypes"; "startTime"; "endTime"];
     required := Some ["sessionId"] |};
  {| name := "aggregate_sessions";
     properties := ["startDate"; "endDate"; "metrics"; "groupBy"; "filters"];
     required := Some ["metrics"] |};
  {| name := "get_user_journey";
     properties := ["userId"; "startDate"; "endDate"; "includeEvents"];
     required := Some ["userId"] |};
  {| name := "get_errors_issues";
     properties := ["startDate"; "endDate"; "errorTypes"; "minOccurrences"; "groupBy"];
     required := None |};
  {| name := "get_funnel_analysis";
     properties := ["steps"; "startDate"; "endDate"; "filters"];
     required := Some ["steps"] |};
  {| name := "get_performance_metrics";
     properties := ["startDate"; "endDate"; "metrics"; "groupBy"; "percentiles"];
     required := Some ["metrics"] |};
  {| name := "execute_custom_query";
     properties := ["query"; "parameters"];
     required := Some ["query"] |}
].

Definition listProjects : M ToolResult :=
  response <- api_get "/api/v1/projects" None ;;
  ret {| content := [ {| type := "text"; text := JSON_stringify response |} ] |}.

Definition getUserSessions (args : arguments) : M ToolResult :=
  fields <- destructure args "userId" ;;
  let userId := property "userId" fields in
  let startDate := property "startDate" fields in
  let endDate := property "endDate" fields in
  userId <- ToString userId ;;
  start_date <- (if truthy startDate then new_Date_getTime startDate
                 else ret VUndefined) ;;
  end_date <- (if truthy endDate then new_Date_getTime endDate
               else ret VUndefined) ;;
  response <- api_get ("/api/v1/" ++ OPENREPLAY_PROJECT_KEY ++ "/users/"
                         ++ userId ++ "/sessions")
      (Some [("start_date", start_date); ("end_date", end_date)]) ;;
  ret {| content := [ {| type := "text"; text := JSON_stringify response |} ] |}.

Definition searchSessions (args : arguments) : M ToolResult :=
  userId <- getProp args "userId" ;;
  if negb (truthy userId) then
    ret {| content := [ {| type := "text";
                       text := "Session search requires a userId when using API key authentication. For full search capabilities, JWT authentication is needed." |} ] |}
  else
    userId <- getProp args "userId" ;;
    userId <- ToString userId ;;
    startDate <- getProp args "startDate" ;;
    start_date <- (if truthy startDate
                   then startDate <- getProp args "startDate" ;;
                        new_Date_getTime startDate
                   else now <- Date_now ;;
                        ret (VJson (JNum (now - 7 * 24 * 60 * 60 * 1000)))) ;;
    endDate <- getProp args "endDate" ;;
    end_date <- (if truthy endDate
                 then endDate <- getProp args "endDate" ;;
                      new_Date_getTime endDate
                 else now <- Date_now ;; ret (VJson (JNum now))) ;;
    response <- api_get ("/api/v1/" ++ OPENREPLAY_PROJECT_KEY ++ "/users/"
                           ++ userId ++ "/sessions")
        (Some [("start_date", start_date); ("end_date", end_date)]) ;;
    ret {| content := [ {| type := "text"; text := JSON_stringify response |} ] |}.

Definition getSessionDetails (args : arguments) : M ToolResult :=
  fields <- destructure args "sessionId" ;;
  ret {| content := [ {| type := "text";
                       text := "Session replay details are not available via API key authentication. Use get_session_events instead or use JWT authentication for full access." |} ] |}.

Definition getSessionEvents (args : arguments) : M ToolResult :=
  fields <- destructure args "sessionId" ;;
  let sessionId := property "sessionId" fields in
  sessionId <- ToString sessionId ;;
  response <- api_get ("/api/v1/" ++ OPENREPLAY_PROJECT_KEY ++ "/sessions/"
                         ++ sessionId ++ "/events") None ;;
  ret {| content := [ {| type := "text"; text := JSON_stringify response |} ] |}.

Definition aggregateSessions (args : arguments) : M ToolResult :=
  ret {| content := [ {| type := "text";
                       text := "Session aggregation is not available via API key authentication. You can retrieve individual user sessions instead." |} ] |}.

Definition getUserJourney (args : arguments) : M ToolResult :=
  fields <- destructure args "userId" ;;
  let userId := property "userId" fields in
  let startDate := property "startDate" fields in
  let endDate := property "endDate" fields in
  userId <- ToString userId ;;
  start_date <- (if truthy startDate then new_Date_getTime startDate
                 else now <- Date_now ;;
                      ret (VJson (JNum (now - 30 * 24 * 60 * 60 * 1000)))) ;;
  end_date <- (if truthy endDate then new_Date_getTime endDate
               else now <- Date_now ;; ret (VJson (JNum now))) ;;
  response <- api_get ("/api/v1/" ++ OPENREPLAY_PROJECT_KEY ++ "/users/"
                         ++ userId ++ "/sessions")
      (Some [("start_date", start_date); ("end_date", end_date)]) ;;
  ret {| content := [ {| type := "text"; text := JSON_stringify response |} ] |}.

Definition getErrorsIssues (args : arguments) : M ToolResult :=
  ret {| content := [ {| type := "text";
                       text := "Error analysis is not available via API key authentication. JWT authentication is required for this feature." |} ] |}.

Definition getFunnelAnalysis (args : arguments) : M ToolResult :=
  ret {| content := [ {| type := "text";
                       text := "Funnel analysis is not available via API key authentication. JWT authentication is required for this feature." |} ] |}.

Definition getPerformanceMetrics (args : arguments) : M ToolResult :=
  ret {| content := [ {| type := "text";
                       text := "Performance metrics are not available via API key authentication. JWT authentication is required for this feature." |} ] |}.

Definition executeCustomQuery (args : arguments) : M ToolResult :=
  fields <- destructure args "query" ;;
  ret {| content := [ {| type := "text";
                       text := "Custom queries are not directly supported. Please use the specific search and filter tools instead." |} ] |}.

(** The handler registered for [CallToolRequestSchema], applied to
    [request.params.name] and [request.params.arguments]. *)
Definition handle (name : string) (args : arguments) : M ToolResult :=
  try_catch
    (if String.eqb name "list_projects" then listProjects
     else if String.eqb name "get_user_sessions" then getUserSessions args
     else if String.eqb name "search_sessions" then searchSessions args
     else if String.eqb name "get_session_details" then getSessionDetails args
     else if String.eqb name "get_session_events" then getSessionEvents args
     else if String.eqb name "aggregate_sessions" then aggregateSessions args
     else if String.eqb name "get_user_journey" then getUserJourney args
     else if String.eqb name "get_errors_issues" then getErrorsIssues args
     else if String.eqb name "get_funnel_analysis" then getFunnelAnalysis args
     else if String.eqb name "get_performance_metrics" then getPerformanceMetrics args
     else if String.eqb name "execute_custom_query" then executeCustomQuery args
     else throw (McpError MethodNotFound ("Unknown tool: " ++ name)))
    (fun error =>
       if instanceof_McpError error then throw error
       else ret {| content := [ {| type := "text";
                     text := "Error: " ++ or_string (message_of error)
                                                    "Unknown error occurred" |} ] |}).

End Server.
End ApiKey.

(** ** Start-up: the environment and the HTTP client *)

(** [process.env] once [dotenv.config()] has run: a variable is a string, or
    is not set. *)
Definition environment : Type := string -> option string.

(** The options given to [axios.create]. *)
Record AxiosConfig : Type := {
  baseURL : string;
  headers : list (string * string)
}.

Module FullAccessStartup.
Section Env.

Variable env : environment.

Definition OPENREPLAY_API_URL : string :=
  or_string (env "OPENREPLAY_API_URL") "https://api.openreplay.com".

Definition OPENREPLAY_API_KEY : string :=
  or_string (env "OPENREPLAY_API_KEY") EmptyString.

Definition OPENREPLAY_PROJECT_ID : string :=
  or_string (env "OPENREPLAY_PROJECT_ID") EmptyString.

(** [this.api], as the constructor builds it. *)
Definition api : AxiosConfig :=
  {| baseURL := OPENREPLAY_API_URL;
     headers := [("Authorization", "Bearer " ++ OPENREPLAY_API_KEY);
                 ("Content-Type", "application/json")] |}.

(** The call handler of the server started in this environment. *)
Definition handle : string -> arguments -> M ToolResult :=
  FullAccess.handle OPENREPLAY_PROJECT_ID.

End Env.
End FullAccessStartup.

Module ApiKeyStartup.
Section Env.

Variable env : environment.

Definition OPENREPLAY_API_URL : string :=
  or_string (env "OPENREPLAY_API_URL") "https://api.openreplay.com".

Definition OPENREPLAY_API_KEY : string :=
  or_string (env "OPENREPLAY_API_KEY") EmptyString.

Definition OPENREPLAY_PROJECT_KEY : string :=
  or_string (env "OPENREPLAY_PROJECT_KEY")
    (or_string (env "OPENREPLAY_PROJECT_ID") EmptyString).

(** [this.api], as the constructor builds it. *)
Definition api : AxiosConfig :=
  {| baseURL := OPENREPLAY_API_URL;
     headers := [("Authorization", OPENREPLAY_API_KEY);
                 ("Content-Type", "application/json")] |}.

(** The call handler of the server started in this environment. *)
Definition handle (getTime : value -> value)
  : string -> arguments -> M ToolResult :=
  ApiKey.handle OPENREPLAY_PROJECT_KEY getTime.

End Env.
End ApiKeyStartup.

(** * The vocabulary of the properties *)

(** A result made of one text item. *)
Definition single_text (t : string) : ToolResult :=
  {| content := [ {| type := "text"; text := t |} ] |}.

(** How a handler method ends once its request has settled. *)
Definition await_text (o : outcome) : completion ToolResult :=
  match o with
  | Resolved data => Returned (single_text (JSON_stringify data))
  | Rejected message => Thrown (AxiosError message)
  end.

(** What the caller of the dispatcher receives for that settlement. *)
Definition settle (o : outcome) : ToolResult :=
  match o with
  | Resolved data => single_text (JSON_stringify data)
  | Rejected message =>
      single_text ("Error: " ++ or_string message "Unknown error occurred")
  end.

(** [w'] differs from [w] by clock readings only. *)
Definition same_service (w w' : world) : Prop :=
  clock w' = clock w /\ remote w' = remote w /\ (reads w <= reads w')%nat.

(** [w'] is [w] after some clock readings and after sending [rs]. *)
Definition extends (w w' : world) (rs : list OutboundRequest) : Prop :=
  same_service w w' /\ sent w' = (sent w ++ rs)%list.

(** A computation that sends nothing and raises no protocol fault: reading
    arguments, reading the clock, filling defaults. *)
Definition quiet {A} (m : M A) : Prop :=
  forall w,
    same_service w (snd (m w)) /\ sent (snd (m w)) = sent w /\
    match fst (m w) with
    | Returned _ => True
    | Thrown error => instanceof_McpError error = false
    end.

(** The ways a handler method can end. *)
Inductive body_shape (w : world)
  : completion ToolResult -> list OutboundRequest -> Prop :=
| body_throws error :
    instanceof_McpError error = false -> body_shape w (Thrown error) []
| body_local t : body_shape w (Returned (single_text t)) []
| body_remote r : body_shape w (await_text (remote w (sent w) r)) [r].

Definition body_ok (m : M ToolResult) : Prop :=
  forall w, exists rs,
    extends w (snd (m w)) rs /\ body_shape w (fst (m w)) rs.

(** The ways a call of the dispatcher can end: the protocol fault for a name
    outside the registry; a text produced without any request; the text made
    from the settlement of the single request [r]. *)
Inductive call_shape (known : bool) (tool : string) (w : world)
  : completion ToolResult -> list OutboundRequest -> Prop :=
| shape_unknown :
    known = false ->
    call_shape known tool w
      (Thrown (McpError MethodNotFound ("Unknown tool: " ++ tool))) []
| shape_local t :
    known = true ->
    call_shape known tool w (Returned (single_text t)) []
| shape_remote r :
    known = true ->
    call_shape known tool w (Returned (settle (remote w (sent w) r))) [r].

Definition day : Z := 24 * 60 * 60 * 1000.

(** [v || d] on values. *)
Definition value_or (v d : value) : value := if truthy v then v else d.

(** The world after one more clock reading, and after sending [r]. *)
Definition tick (w : world) : world :=
  {| clock := clock w; reads := S (reads w); remote := remote w; sent := sent w |}.

Definition sent_to (w : world) (r : OutboundRequest) : world :=
  {| clock := clock w; reads := reads w; remote := remote w;
     sent := sent w ++ [r] |}.

(** The [catch] clause of both dispatchers. *)
Definition on_error (error : exn) : M ToolResult :=
  if instanceof_McpError error then throw error
  else ret {| content := [ {| type := "text";
                text := "Error: " ++ or_string (message_of error)
                                               "Unknown error occurred" |} ] |}.

(** The request table of the full-access server: what a call sends, where
    [t_start] and [t_end] are the clock readings taken for a missing start
    and end date.  Nothing is sent without an argument object, nor when the
    identifier that goes into the path does not convert to text. *)
Definition full_access_plan (pid tool : string) (args : arguments)
    (t_start t_end : Z) : option OutboundRequest :=
  match args with
  | None => None
  | Some fields =>
      let arg k := property k fields in
      let startDate :=
        ("startDate",
         value_or (arg "startDate") (JStr (toISOString (t_start - 7 * day)))) in
      let endDate :=
        ("endDate", value_or (arg "endDate") (JStr (toISOString t_end))) in
      let post url data :=
        Some {| method := POST; path := "/v1/projects/" ++ pid ++ url;
                payload := Some data |} in
      let get url params :=
        Some {| method := GET; path := "/v1/projects/" ++ pid ++ url;
                payload := params |} in
      if String.eqb tool "search_sessions" then
        post "/sessions/search"
          [startDate; endDate;
           ("filters", value_or (arg "filters") (JArr []));
           ("limit", value_or (arg "limit") (JNum 50));
           ("offset", value_or (arg "offset") (JNum 0));
           ("sort", value_or (arg "sort")
                      (JObj [("field", JStr "startedAt"); ("order", JStr "desc")]))]
      else if String.eqb tool "get_session_details" then
        match toString (arg "sessionId") with
        | Some sessionId => get ("/sessions/" ++ sessionId) None
        | None => None
        end
      else if String.eqb tool "get_session_events" then
        match toString (arg "sessionId") with
        | Some sessionId =>
            get ("/sessions/" ++ sessionId ++ "/events")
              (Some [("eventTypes", arg "eventTypes");
                     ("startTime", arg "startTime");
                     ("endTime", arg "endTime")])
        | None => None
        end
      else if String.eqb tool "aggregate_sessions" then
        post "/sessions/aggregate"
          [startDate; endDate; ("metrics", arg "metrics");
           ("groupBy", value_or (arg "groupBy") (JArr []));
           ("filters", value_or (arg "filters") (JArr []))]
      else if String.eqb tool "get_user_journey" then
        match toString (arg "userId") with
        | Some userId =>
            get ("/users/" ++ userId ++ "/journey")
              (Some [("startDate", arg "startDate"); ("endDate", arg "endDate");
                     ("includeEvents", arg "includeEvents")])
        | None => None
        end
      else if String.eqb tool "get_errors_issues" then
        post "/errors/search"
          [startDate; endDate;
           ("errorTypes", value_or (arg "errorTypes") (JArr []));
           ("minOccurrences", value_or (arg "minOccurrences") (JNum 1));
           ("groupBy", value_or (arg "groupBy") (JStr "message"))]
      else if String.eqb tool "get_funnel_analysis" then
        post "/funnels/analyze"
          [("steps", arg "steps"); startDate; endDate;
           ("filters", value_or (arg "filters") (JArr []))]
      else if String.eqb tool "get_performance_metrics" then
        post "/performance/metrics"
          [startDate; endDate; ("metrics", arg "metrics");
           ("groupBy", value_or (arg "groupBy") (JArr []));
           ("percentiles", value_or (arg "percentiles")
                             (JArr [JNum 50; JNum 75; JNum 90; JNum 95; JNum 99]))]
      else if String.eqb tool "execute_custom_query" then
        post "/query"
          [("query", arg "query");
           ("parameters", value_or (arg "parameters") (JObj []))]
      else None
  end.

(** A date parameter of the API-key server: the caller's date in
    milliseconds when it is truthy, unless its conversion throws; the default
    otherwise. *)
Definition date_param (getTime : value -> value) (v default : value)
  : option value :=
  if truthy v then
    match toString v with
    | Some _ => Some (getTime v)
    | None => None
    end
  else Some default.

(** The request table of the API-key server.  Nothing is sent when the
    identifier or a date that is given does not convert. *)
Definition api_key_plan (key : string) (getTime : value -> value)
    (tool : string) (args : arguments) (t_start t_end : Z)
  : option OutboundRequest :=
  if String.eqb tool "list_projects" then
    Some {| method := GET; path := "/api/v1/projects"; payload := None |}
  else
    match args with
    | None => None
    | Some fields =>
        let arg k := property k fields in
        let user_sessions start_default end_default :=
          match toString (arg "userId"),
                date_param getTime (arg "startDate") start_default,
                date_param getTime (arg "endDate") end_default with
          | Some userId, Some start_date, Some end_date =>
              Some {| method := GET;
                      path := "/api/v1/" ++ key ++ "/users/" ++ userId
                                ++ "/sessions";
                      payload := Some [("start_date", start_date);
                                       ("end_date", end_date)] |}
          | _, _, _ => None
          end in
        if String.eqb tool "get_user_sessions" then
          user_sessions VUndefined VUndefined
        else if String.eqb tool "search_sessions" then
          if truthy (arg "userId")
          then user_sessions (JNum (t_start - 7 * day)) (JNum t_end)
          else None
        else if String.eqb tool "get_session_events" then
          match toString (arg "sessionId") with
          | Some sessionId =>
              Some {| method := GET;
                      path := "/api/v1/" ++ key ++ "/sessions/" ++ sessionId
                                ++ "/events";
                      payload := None |}
          | None => None
          end
        else if String.eqb tool "get_user_journey" then
          user_sessions (JNum (t_start - 30 * day)) (JNum t_end)
        else None
    end.

(** The readings of the clock that missing dates get: the first one of the
    call for the start date; for the end date the first one when the start
    date was given, the second one otherwise. *)
Definition start_reading (w : world) : Z := clock w (reads w).

Definition end_reading (args : arguments) (w : world) : Z :=
  match args with
  | Some fields =>
      clock w (if truthy (property "startDate" fields)
               then reads w else S (reads w))
  | None => clock w (reads w)
  end.

Definition option_list {A} (o : option A) : list A :=
  match o with
  | Some a => [a]
  | None => []
  end.

Inductive server : Type :=
| full_access (project_id : string)
| api_key (project_key : string) (getTime : value -> value).

Definition registry (s : server) : list ToolDefinition :=
  match s with
  | full_access _ => FullAccess.tools
  | api_key _ _ => ApiKey.tools
  end.

Definition handle (s : server) (tool : string) (args : arguments)
  : M ToolResult :=
  match s with
  | full_access pid => FullAccess.handle pid tool args
  | api_key key getTime => ApiKey.handle key getTime tool args
  end.

Definition plan (s : server) (tool : string) (args : arguments)
    (t_start t_end : Z) : option OutboundRequest :=
  match s with
  | full_access pid => full_access_plan pid tool args t_start t_end
  | api_key key getTime => api_key_plan key getTime tool args t_start t_end
  end.

(** A world whose clock stands still and whose remote service always
    settles the same way. *)
Definition steady_world (now : Z) (answer : outcome) : world :=
  {| clock := fun _ => now; reads := 0; remote := fun _ _ => answer; sent := [] |}.

(** A world whose clock advances by one millisecond at every reading. *)
Definition ticking_world (start : Z) (answer : outcome) : world :=
  {| clock := fun n => start + Z.of_nat n; reads := 0;
     remote := fun _ _ => answer; sent := [] |}.

(** The conversion of a value to text does not throw. *)
Definition converts (v : value) : bool :=
  match toString v with
  | Some _ => true
  | None => false
  end.

(** A date argument can be used: it is falsy, and then replaced, or it
    converts. *)
Definition date_converts (v : value) : bool := negb (truthy v) || converts v.

(** The argument that the full-access server writes into the path. *)
Definition path_identifier (tool : string) : option string :=
  if String.eqb tool "get_session_details" then Some "sessionId"
  else if String.eqb tool "get_session_events" then Some "sessionId"
  else if String.eqb tool "get_user_journey" then Some "userId"
  else None.

Definition identifier_converts (tool : string) (fields : list (string * json))
  : bool :=
  match path_identifier tool with
  | Some k => converts (property k fields)
  | None => true
  end.

(** The request that C2 describes for [search_sessions] without arguments,
    with the start date made from the time [t_start] and the end date from
    the time [t_end]. *)
Definition default_search_request (pid : string) (t_start t_end : Z)
  : OutboundRequest :=
  {| method := POST;
     path := "/v1/projects/" ++ pid ++ "/sessions/search";
     payload :=
       Some [("startDate", VJson (JStr (toISOString (t_start - 7 * day))));
             ("endDate", VJson (JStr (toISOString t_end)));
             ("filters", VJson (JArr []));
             ("limit", VJson (JNum 50));
             ("offset", VJson (JNum 0));
             ("sort", VJson (JObj [("field", JStr "startedAt");
                                   ("order", JStr "desc")]))] |}.


(** The request carries the value [v] under the key [k] of its payload. *)
Definition carries (r : OutboundRequest) (k : string) (v : value) : Prop :=
  exists body, payload r = Some body /\ In (k, v) body.

(** How the full-access server fills a payload field: forwarded as it is,
    replaced by a fixed default when falsy, or replaced by a date made from
    a clock reading when falsy. *)
Inductive default_rule : Type :=
| Forwarded
| Static (d : json)
| FromClock.

Definition default_rule_of (tool k : string) : default_rule :=
  let among names := existsb (String.eqb tool) names in
  if (String.eqb k "startDate" || String.eqb k "endDate")
     && among ["search_sessions"; "aggregate_sessions"; "get_errors_issues";
               "get_funnel_analysis"; "get_performance_metrics"]
  then FromClock
  else if String.eqb k "filters"
          && among ["search_sessions"; "aggregate_sessions"; "get_funnel_analysis"]
  then Static (JArr [])
  else if String.eqb k "groupBy"
          && among ["aggregate_sessions"; "get_performance_metrics"]
  then Static (JArr [])
  else if String.eqb tool "search_sessions" then
    if String.eqb k "limit" then Static (JNum 50)
    else if String.eqb k "offset" then Static (JNum 0)
    else if String.eqb k "sort"
    then Static (JObj [("field", JStr "startedAt"); ("order", JStr "desc")])
    else Forwarded
  else if String.eqb tool "get_errors_issues" then
    if String.eqb k "errorTypes" then Static (JArr [])
    else if String.eqb k "minOccurrences" then Static (JNum 1)
    else if String.eqb k "groupBy" then Static (JStr "message")
    else Forwarded
  else if String.eqb tool "get_performance_metrics" && String.eqb k "percentiles"
  then Static (JArr [JNum 50; JNum 75; JNum 90; JNum 95; JNum 99])
  else if String.eqb tool "execute_custom_query" && String.eqb k "parameters"
  then Static (JObj [])
  else Forwarded.

(** The keys of the payload that a tool of the full-access server sends, in
    order; [None] for a request without payload. *)
Definition payload_keys (tool : string) : option (list string) :=
  if String.eqb tool "search_sessions" then
    Some ["startDate"; "endDate"; "filters"; "limit"; "offset"; "sort"]
  else if String.eqb tool "get_session_events" then
    Some ["eventTypes"; "startTime"; "endTime"]
  else if String.eqb tool "aggregate_sessions" then
    Some ["startDate"; "endDate"; "metrics"; "groupBy"; "filters"]
  else if String.eqb tool "get_user_journey" then
    Some ["startDate"; "endDate"; "includeEvents"]
  else if String.eqb tool "get_errors_issues" then
    Some ["startDate"; "endDate"; "errorTypes"; "minOccurrences"; "groupBy"]
  else if String.eqb tool "get_funnel_analysis" then
    Some ["steps"; "startDate"; "endDate"; "filters"]
  else if String.eqb tool "get_performance_metrics" then
    Some ["startDate"; "endDate"; "metrics"; "groupBy"; "percentiles"]
  else if String.eqb tool "execute_custom_query" then
    Some ["query"; "parameters"]
  else None.

(** The value a payload field gets by its rule: the caller's value; or the
    caller's value unless it is falsy, and then the fixed default; or the
    caller's value unless it is falsy, and then the ISO date of [t_start]
    minus seven days for [startDate] and of [t_end] for [endDate]. *)
Definition filled (tool : string) (fields : list (string * json))
    (t_start t_end : Z) (k : string) : value :=
  match default_rule_of tool k with
  | Forwarded => property k fields
  | Static d => value_or (property k fields) (VJson d)
  | FromClock =>
      value_or (property k fields)
        (VJson (JStr (toISOString (if String.eqb k "startDate"
                                   then t_start - 7 * day else t_end))))
  end.

(** The payload keys whose default is made from the clock. *)
Definition time_derived (k : string) : bool :=
  existsb (String.eqb k) ["startDate"; "endDate"; "start_date"; "end_date"].

(** The shape of a request: its method, its path, and its payload without
    the time-derived fields. *)
Definition shape_of (r : OutboundRequest) : OutboundRequest :=
  {| method := method r;
     path := path r;
     payload :=
       option_map (filter (fun kv => negb (time_derived (fst kv)))) (payload r) |}.

(** The properties that the registry entry of a tool declares. *)
Definition declared_properties (s : server) (tool : string) : list string :=
  match find (fun t => String.eqb tool (name t)) (registry s) with
  | Some t => properties t
  | None => []
  end.

(** Two argument objects give the same value to every key of a list. *)
Definition agree_on (keys : list string) (fields fields' : list (string * json))
  : Prop :=
  forall k, In k keys -> property k fields = property k fields'.

(** The arguments the API-key server looks at, tool by tool. *)
Definition api_key_reads (tool : string) : list string :=
  if existsb (String.eqb tool)
       ["get_user_sessions"; "search_sessions"; "get_user_journey"]
  then ["userId"; "startDate"; "endDate"]
  else if String.eqb tool "get_session_events" then ["sessionId"]
  else [].

(** The tools whose handler reads its argument object before anything else. *)
Definition reads_arguments (s : server) (tool : string) : bool :=
  match s with
  | full_access _ => declared FullAccess.tools tool
  | api_key _ _ =>
      existsb (String.eqb tool)
        ["get_user_sessions"; "search_sessions"; "get_session_details";
         "get_session_events"; "get_user_journey"; "execute_custom_query"]
  end.

(** The tools whose handler sends a request and never reads the clock. *)
Definition clockless (s : server) (tool : string) : bool :=
  match s with
  | full_access _ =>
      existsb (String.eqb tool)
        ["get_session_details"; "get_session_events"; "get_user_journey";
         "execute_custom_query"]
  | api_key _ _ =>
      existsb (String.eqb tool)
        ["list_projects"; "get_user_sessions"; "get_session_events"]
  end.

(** A registry is well formed when its names are pairwise distinct and every
    required field of an entry is one of its declared properties. *)
Definition well_formed (tools : list ToolDefinition) : Prop :=
  NoDup (map name tools) /\
  Forall (fun t => match required t with
                   | Some fields => incl fields (properties t)
                   | None => True
                   end) tools.

(** [p] is an initial segment of [s]. *)
Fixpoint starts_with (p s : string) : bool :=
  match p, s with
  | EmptyString, _ => true
  | String a p', String b s' => Ascii.eqb a b && starts_with p' s'
  | String _ _, EmptyString => false
  end.

(** * Properties of the dispatcher *)

(** ** Strings and ISO dates *)

Lemma append_assoc (a b c : string) : (a ++ b) ++ c = a ++ (b ++ c).
Proof. induction a as [|ch a IH]; simpl; [reflexivity | now rewrite IH]. Qed.

Lemma append_length (a b : string) :
  String.length (a ++ b) = (String.length a + String.length b)%nat.
Proof. induction a as [|ch a IH]; simpl; [reflexivity | now rewrite IH]. Qed.

Lemma append_inj_left (a b s s' : string) :
  String.length a = String.length b -> a ++ s = b ++ s' -> a = b /\ s = s'.
Proof.
  revert b. induction a as [|ch a IH]; intros [|ch' b] Hlen H;
    simpl in *; try discriminate Hlen.
  - auto.
  - injection H as -> H. injection Hlen as Hlen.
    destruct (IH b Hlen H) as [-> ->]. auto.
Qed.

Lemma append_inj_right (a b s s' : string) :
  String.length s = String.length s' -> a ++ s = b ++ s' -> a = b /\ s = s'.
Proof.
  intros Hlen H. apply append_inj_left; [|exact H].
  apply (f_equal String.length) in H. rewrite !append_length in H. lia.
Qed.

(** The three digits of the milliseconds: always three, and they determine
    the number. *)
Lemma pad3_digits n :
  0 <= n < 1000 ->
  String.length (pad 3 n) = 3%nat /\
  option_map Z.of_int (NilZero.int_of_string (pad 3 n)) = Some n.
Proof.
  intro Hn.
  assert (Hall :
            forallb (fun k =>
                       Nat.eqb (String.length (pad 3 (Z.of_nat k))) 3
                       && match NilZero.int_of_string (pad 3 (Z.of_nat k)) with
                          | Some i => Z.eqb (Z.of_int i) (Z.of_nat k)
                          | None => false
                          end) (seq 0 1000) = true) by (vm_compute; reflexivity).
  rewrite forallb_forall in Hall.
  specialize (Hall (Z.to_nat n)). rewrite Z2Nat.id in Hall by lia.
  assert (Hin : In (Z.to_nat n) (seq 0 1000)) by (apply in_seq; lia).
  apply Hall in Hin. apply andb_prop in Hin as [Hlen Hval].
  apply Nat.eqb_eq in Hlen. split; [exact Hlen|].
  destruct (NilZero.int_of_string (pad 3 n)) as [i|]; [|discriminate].
  apply Z.eqb_eq in Hval. simpl. now rewrite Hval.
Qed.

Lemma toISOString_millis t :
  exists front,
    toISOString t = front ++ pad 3 ((t mod 86400000) mod 1000) ++ "Z".
Proof.
  unfold toISOString. cbv zeta.
  destruct (civil_from_days (t / 86400000)) as [[y m] d].
  eexists (iso_year y ++ "-" ++ pad 2 m ++ "-" ++ pad 2 d ++ "T"
             ++ pad 2 (t mod 86400000 / 3600000) ++ ":"
             ++ pad 2 ((t mod 86400000 / 60000) mod 60) ++ ":"
             ++ pad 2 ((t mod 86400000 / 1000) mod 60) ++ ".").
  rewrite !append_assoc. reflexivity.
Qed.

(** Two times with the same ISO text have the same milliseconds. *)
Lemma toISOString_same_millis a b :
  toISOString a = toISOString b -> a mod 1000 = b mod 1000.
Proof.
  intro H.
  destruct (toISOString_millis a) as [fa Ha].
  destruct (toISOString_millis b) as [fb Hb].
  rewrite Ha, Hb in H.
  assert (Ra : 0 <= (a mod 86400000) mod 1000 < 1000)
    by (apply Z.mod_pos_bound; lia).
  assert (Rb : 0 <= (b mod 86400000) mod 1000 < 1000)
    by (apply Z.mod_pos_bound; lia).
  destruct (pad3_digits _ Ra) as [La Va].
  destruct (pad3_digits _ Rb) as [Lb Vb].
  apply append_inj_right in H; [|rewrite !append_length, La, Lb; reflexivity].
  destruct H as [_ H].
  apply append_inj_left in H; [|congruence].
  destruct H as [H _]. rewrite H in Va. rewrite Va in Vb.
  injection Vb as Vb.
  pose proof (Z.div_mod a 86400000 ltac:(lia)).
  pose proof (Z.div_mod b 86400000 ltac:(lia)).
  Z.div_mod_to_equations. lia.
Qed.

Arguments property : simpl never.
Arguments truthy : simpl nomatch.
Arguments toString : simpl never.
Arguments toISOString : simpl never.
Arguments JSON_stringify : simpl never.
Arguments String.append : simpl never.

(** ** The shape of a run *)

Lemma same_service_refl w : same_service w w.
Proof. unfold same_service. auto. Qed.

Lemma same_service_trans w1 w2 w3 :
  same_service w1 w2 -> same_service w2 w3 -> same_service w1 w3.
Proof.
  unfold same_service. intros (C1 & R1 & L1) (C2 & R2 & L2).
  repeat split; [congruence | congruence | lia].
Qed.

Lemma skipn_length_app {A} (l l' : list A) :
  skipn (List.length l) (l ++ l')%list = l'.
Proof.
  induction l as [|a l IH]; simpl; [reflexivity | exact IH].
Qed.

Lemma extends_issued {A} (m : M A) w rs :
  extends w (snd (m w)) rs -> issued m w = rs.
Proof.
  intros (_ & E). unfold issued. rewrite E. apply skipn_length_app.
Qed.

Lemma declared_In tools tool :
  declared tools tool = true <-> In tool (map name tools).
Proof.
  unfold declared. rewrite existsb_exists, in_map_iff. split.
  - intros (t & Ht & E). apply String.eqb_eq in E. eauto.
  - intros (t & E & Ht). exists t. split; [exact Ht|]. apply String.eqb_eq. auto.
Qed.

(** *** Quiet computations compose *)

Lemma quiet_ret {A} (a : A) : quiet (ret a).
Proof. intro w. cbn. auto using same_service_refl. Qed.

Lemma quiet_throw_TypeError {A} msg : quiet (@throw A (TypeError msg)).
Proof. intro w. cbn. auto using same_service_refl. Qed.

Lemma quiet_bind {A B} (m : M A) (k : A -> M B) :
  quiet m -> (forall a, quiet (k a)) -> quiet (bind m k).
Proof.
  intros Hm Hk w. unfold bind. specialize (Hm w).
  destruct (m w) as [[a|error] w1]; cbn in *.
  - destruct Hm as (S1 & E1 & _). destruct (Hk a w1) as (S2 & E2 & R2).
    split; [eapply same_service_trans; eauto | split; [congruence | exact R2]].
  - exact Hm.
Qed.

Lemma quiet_getProp args k : quiet (getProp args k).
Proof.
  destruct args; [apply quiet_ret | apply quiet_throw_TypeError].
Qed.

Lemma quiet_destructure args k : quiet (destructure args k).
Proof.
  destruct args; [apply quiet_ret | apply quiet_throw_TypeError].
Qed.

Lemma quiet_ToString v : quiet (ToString v).
Proof.
  unfold ToString.
  destruct (toString v); [apply quiet_ret | apply quiet_throw_TypeError].
Qed.

Lemma quiet_new_Date_getTime getTime v :
  quiet (ApiKey.new_Date_getTime getTime v).
Proof.
  unfold ApiKey.new_Date_getTime.
  destruct (toString v); [apply quiet_ret | apply quiet_throw_TypeError].
Qed.

Lemma quiet_Date_now : quiet Date_now.
Proof.
  intro w. cbn. unfold same_service. cbn. repeat split; auto.
Qed.

Lemma quiet_if {A} (b : bool) (m1 m2 : M A) :
  quiet m1 -> quiet m2 -> quiet (if b then m1 else m2).
Proof. destruct b; auto. Qed.

Lemma quiet_or_else a b : quiet a -> quiet b -> quiet (a <||> b).
Proof.
  intros Ha Hb. unfold or_else. apply quiet_bind; [exact Ha|].
  intro v. apply quiet_if; [apply quiet_ret | exact Hb].
Qed.

Create HintDb handlers.
#[local] Hint Resolve quiet_ret quiet_throw_TypeError quiet_getProp
  quiet_destructure quiet_ToString quiet_new_Date_getTime quiet_Date_now
  quiet_if quiet_or_else : handlers.
#[local] Hint Extern 2 (quiet (bind _ _)) =>
  apply quiet_bind; [ | intro ] : handlers.

(** *** Handler methods *)

Lemma body_ok_ret t : body_ok (ret (single_text t)).
Proof.
  intro w. exists []. cbn. split; [|apply body_local].
  split; [apply same_service_refl | symmetry; apply app_nil_r].
Qed.

Lemma body_ok_request r :
  body_ok (response <- request r ;; ret (single_text (JSON_stringify response))).
Proof.
  intro w. exists [r]. unfold bind, request, ret.
  pose proof (body_remote w r) as Hshape.
  destruct (remote w (sent w) r); cbn in *;
    (split; [split; [unfold same_service; cbn; auto | reflexivity] | exact Hshape]).
Qed.

Lemma body_ok_bind {A} (m : M A) (k : A -> M ToolResult) :
  quiet m -> (forall a, body_ok (k a)) -> body_ok (bind m k).
Proof.
  intros Hm Hk w. unfold bind. specialize (Hm w).
  destruct (m w) as [[a|error] w1]; cbn in *.
  - destruct Hm as (S1 & E1 & _).
    destruct (Hk a w1) as (rs & (S2 & E2) & Hshape).
    exists rs. split.
    + split; [eapply same_service_trans; eauto | congruence].
    + destruct S1 as (_ & R1 & _).
      destruct Hshape; try constructor; auto.
      rewrite R1, E1. constructor.
  - destruct Hm as (S1 & E1 & Herr). exists []. split.
    + split; [exact S1 | rewrite E1; symmetry; apply app_nil_r].
    + constructor. exact Herr.
Qed.

Lemma body_ok_if (b : bool) (m1 m2 : M ToolResult) :
  body_ok m1 -> body_ok m2 -> body_ok (if b then m1 else m2).
Proof. destruct b; auto. Qed.

Ltac handler_body :=
  repeat first
    [ apply body_ok_ret
    | apply body_ok_request
    | apply body_ok_if
    | apply body_ok_bind; [ solve [auto 8 with handlers] | intro ] ].

(** The [try]/[catch] of the dispatcher around a handler method. *)
Lemma call_of_body tool (body : M ToolResult) w :
  body_ok body ->
  exists rs,
    extends w (snd (try_catch body
      (fun error =>
         if instanceof_McpError error then throw error
         else ret {| content := [ {| type := "text";
                       text := "Error: " ++ or_string (message_of error)
                                                      "Unknown error occurred" |} ] |})
      w)) rs /\
    call_shape true tool w (fst (try_catch body
      (fun error =>
         if instanceof_McpError error then throw error
         else ret {| content := [ {| type := "text";
                       text := "Error: " ++ or_string (message_of error)
                                                      "Unknown error occurred" |} ] |})
      w)) rs.
Proof.
  intro Hbody. destruct (Hbody w) as (rs & Hext & Hshape).
  exists rs. unfold try_catch.
  destruct (body w) as [[r|error] w1]; cbn in *.
  - split; [exact Hext|].
    inversion Hshape; subst.
    + apply shape_local. reflexivity.
    + match goal with H : await_text ?o = _ |- _ =>
        destruct o eqn:Ho; cbn in H; inversion H; subst end.
      pose proof (shape_remote true tool w r0 eq_refl) as S.
      rewrite Ho in S. exact S.
  - inversion Hshape; subst.
    + match goal with H : instanceof_McpError _ = false |- _ => rewrite H end.
      cbn. split; [exact Hext|]. apply shape_local. reflexivity.
    + match goal with H : await_text ?o = _ |- _ =>
        destruct o eqn:Ho; cbn in H; inversion H; subst end.
      cbn. split; [exact Hext|].
      pose proof (shape_remote true tool w r eq_refl) as S.
      rewrite Ho in S. exact S.
Qed.

(** *** The two dispatchers *)

Ltac full_access_cases tool :=
  unfold FullAccess.handle;
  destruct (String.eqb tool "search_sessions") eqn:?;
  [ | destruct (String.eqb tool "get_session_details") eqn:?;
  [ | destruct (String.eqb tool "get_session_events") eqn:?;
  [ | destruct (String.eqb tool "aggregate_sessions") eqn:?;
  [ | destruct (String.eqb tool "get_user_journey") eqn:?;
  [ | destruct (String.eqb tool "get_errors_issues") eqn:?;
  [ | destruct (String.eqb tool "get_funnel_analysis") eqn:?;
  [ | destruct (String.eqb tool "get_performance_metrics") eqn:?;
  [ | destruct (String.eqb tool "execute_custom_query") eqn:? ] ] ] ] ] ] ] ].

Ltac api_key_cases tool :=
  unfold ApiKey.handle;
  destruct (String.eqb tool "list_projects") eqn:?;
  [ | destruct (String.eqb tool "get_user_sessions") eqn:?;
  [ | destruct (String.eqb tool "search_sessions") eqn:?;
  [ | destruct (String.eqb tool "get_session_details") eqn:?;
  [ | destruct (String.eqb tool "get_session_events") eqn:?;
  [ | destruct (String.eqb tool "aggregate_sessions") eqn:?;
  [ | destruct (String.eqb tool "get_user_journey") eqn:?;
  [ | destruct (String.eqb tool "get_errors_issues") eqn:?;
  [ | destruct (String.eqb tool "get_funnel_analysis") eqn:?;
  [ | destruct (String.eqb tool "get_performance_metrics") eqn:?;
  [ | destruct (String.eqb tool "execute_custom_query") eqn:? ] ] ] ] ] ] ] ] ] ].

(** Decide [declared] from the name tests left by the case split. *)
Ltac known_by_cases :=
  unfold declared; cbn;
  repeat match goal with
         | H : String.eqb _ _ = _ |- _ => rewrite H; clear H
         end;
  reflexivity.

Ltac shape_by_cases tools tool w :=
  match goal with
  | H : String.eqb tool _ = true |- _ =>
      replace (declared tools tool) with true by (symmetry; known_by_cases);
      apply call_of_body
  | _ =>
      replace (declared tools tool) with false by (symmetry; known_by_cases);
      exists []; cbn; split;
      [ split; [apply same_service_refl | symmetry; apply app_nil_r]
      | apply shape_unknown; reflexivity ]
  end.

Lemma full_access_shape pid tool args w :
  exists rs,
    extends w (snd (FullAccess.handle pid tool args w)) rs /\
    call_shape (declared FullAccess.tools tool) tool w
      (fst (FullAccess.handle pid tool args w)) rs.
Proof.
  full_access_cases tool; shape_by_cases FullAccess.tools tool w.
  - unfold FullAccess.searchSessions. handler_body.
  - unfold FullAccess.getSessionDetails. handler_body.
  - unfold FullAccess.getSessionEvents. handler_body.
  - unfold FullAccess.aggregateSessions. handler_body.
  - unfold FullAccess.getUserJourney. handler_body.
  - unfold FullAccess.getErrorsIssues. handler_body.
  - unfold FullAccess.getFunnelAnalysis. handler_body.
  - unfold FullAccess.getPerformanceMetrics. handler_body.
  - unfold FullAccess.executeCustomQuery. handler_body.
Qed.

Lemma api_key_shape key getTime tool args w :
  exists rs,
    extends w (snd (ApiKey.handle key getTime tool args w)) rs /\
    call_shape (declared ApiKey.tools tool) tool w
      (fst (ApiKey.handle key getTime tool args w)) rs.
Proof.
  api_key_cases tool; shape_by_cases ApiKey.tools tool w.
  - unfold ApiKey.listProjects. handler_body.
  - unfold ApiKey.getUserSessions. handler_body.
  - unfold ApiKey.searchSessions. handler_body.
  - unfold ApiKey.getSessionDetails. handler_body.
  - unfold ApiKey.getSessionEvents. handler_body.
  - unfold ApiKey.aggregateSessions. handler_body.
  - unfold ApiKey.getUserJourney. handler_body.
  - unfold ApiKey.getErrorsIssues. handler_body.
  - unfold ApiKey.getFunnelAnalysis. handler_body.
  - unfold ApiKey.getPerformanceMetrics. handler_body.
  - unfold ApiKey.executeCustomQuery. handler_body.
Qed.

(** ** The request a call sends *)

Lemma run_getProp {B} fields k (f : value -> M B) w :
  bind (getProp (Some fields) k) f w = f (property k fields) w.
Proof. reflexivity. Qed.

Lemma run_destructure {B} fields k (f : list (string * json) -> M B) w :
  bind (destructure (Some fields) k) f w = f fields w.
Proof. reflexivity. Qed.

Lemma run_ToString {B} v (f : string -> M B) w :
  bind (ToString v) f w
  = match toString v with
    | Some s => f s w
    | None =>
        (Thrown (TypeError "Cannot convert object to primitive value"), w)
    end.
Proof. unfold bind, ToString. destruct (toString v); reflexivity. Qed.

Lemma run_default_static {B} fields k (d : value) (f : value -> M B) w :
  bind (getProp (Some fields) k <||> ret d) f w
  = f (value_or (property k fields) d) w.
Proof.
  unfold or_else, value_or. unfold bind, getProp, ret. cbn.
  destruct (truthy (property k fields)); reflexivity.
Qed.

Lemma run_default_local {B} (v d : value) (f : value -> M B) w :
  bind (ret v <||> ret d) f w = f (value_or v d) w.
Proof.
  unfold or_else, value_or. unfold bind, ret. cbn.
  destruct (truthy v); reflexivity.
Qed.

Lemma run_default_clock {B} fields k (g : Z -> value) (f : value -> M B) w :
  bind (getProp (Some fields) k <||> (now <- Date_now ;; ret (g now))) f w
  = if truthy (property k fields)
    then f (property k fields) w
    else f (g (clock w (reads w))) (tick w).
Proof.
  unfold or_else, tick. unfold bind, getProp, ret, Date_now. cbn.
  destruct (truthy (property k fields)); reflexivity.
Qed.

Lemma run_request_text r w :
  (response <- request r ;;
   ret {| content := [ {| type := "text"; text := JSON_stringify response |} ] |}) w
  = (await_text (remote w (sent w) r), sent_to w r).
Proof.
  unfold bind, request, ret, await_text, sent_to.
  destruct (remote w (sent w) r); reflexivity.
Qed.

Lemma run_api_get_text url params w :
  (response <- api_get url params ;;
   ret {| content := [ {| type := "text"; text := JSON_stringify response |} ] |}) w
  = (await_text (remote w (sent w) {| method := GET; path := url; payload := params |}),
     sent_to w {| method := GET; path := url; payload := params |}).
Proof. apply run_request_text. Qed.

Lemma run_api_post_text url data w :
  (response <- api_post url data ;;
   ret {| content := [ {| type := "text"; text := JSON_stringify response |} ] |}) w
  = (await_text (remote w (sent w)
                   {| method := POST; path := url; payload := Some data |}),
     sent_to w {| method := POST; path := url; payload := Some data |}).
Proof. apply run_request_text. Qed.

(** The [catch] clause sends nothing and reads no clock. *)
Lemma catch_world body w :
  snd (try_catch body on_error w) = snd (body w).
Proof.
  unfold try_catch, on_error.
  destruct (body w) as [[r|error] w1]; [reflexivity|].
  destruct (instanceof_McpError error); reflexivity.
Qed.

Lemma catch_issued body w :
  issued (try_catch body on_error) w = issued body w.
Proof. unfold issued. rewrite catch_world. reflexivity. Qed.

Lemma catch_result body w :
  result_of (try_catch body on_error) w
  = match result_of body w with
    | Returned r => Returned r
    | Thrown error =>
        if instanceof_McpError error then Thrown error
        else Returned (single_text
               ("Error: " ++ or_string (message_of error) "Unknown error occurred"))
    end.
Proof.
  unfold result_of, try_catch, on_error.
  destruct (body w) as [[r|error] w1]; [reflexivity|]. cbn.
  destruct (instanceof_McpError error); reflexivity.
Qed.

Lemma issued_sent_to w w' r :
  sent w' = sent w -> skipn (List.length (sent w)) (sent (sent_to w' r)) = [r].
Proof. intro E. cbn. rewrite E. apply skipn_length_app. Qed.

Lemma issued_nothing w w' :
  sent w' = sent w -> skipn (List.length (sent w)) (sent w') = [].
Proof.
  intro E. rewrite E. rewrite <- (app_nil_r (sent w)) at 2.
  apply skipn_length_app.
Qed.

Ltac run_step :=
  first
    [ rewrite run_default_static
    | rewrite run_default_local
    | rewrite run_default_clock;
      match goal with
      | |- context [if truthy ?v then _ else _] => destruct (truthy v) eqn:?
      end
    | rewrite run_ToString;
      match goal with
      | |- context [match toString ?v with _ => _ end] =>
          destruct (toString v) eqn:?
      end
    | rewrite run_getProp
    | rewrite run_destructure
    | rewrite run_api_post_text
    | rewrite run_api_get_text ];
  cbv beta zeta.

Ltac rewrite_tests :=
  repeat match goal with
         | H : truthy _ = _ |- _ => rewrite H; clear H
         end.

(** A handler body run on an argument object, against its table entry. *)
Ltac plan_entry :=
  cbv iota; repeat run_step;
  cbn [snd option_list];
  first [ rewrite issued_sent_to by reflexivity
        | rewrite issued_nothing by reflexivity ];
  unfold value_or; rewrite_tests; reflexivity.

(** Resolve the [switch] of the dispatcher at a literal tool name. *)
Ltac select_tool := cbn [String.eqb Ascii.eqb Bool.eqb].

Ltac known_tool tool name :=
  destruct (String.eqb_spec tool name) as [->|?].

Lemma full_access_issued pid tool args w :
  issued (FullAccess.handle pid tool args) w
  = option_list (full_access_plan pid tool args
                   (start_reading w) (end_reading args w)).
Proof.
  unfold FullAccess.handle, full_access_plan, start_reading, end_reading.
  fold on_error. rewrite catch_issued. unfold issued.
  destruct args as [fields|].
  - known_tool tool "search_sessions".
    { unfold FullAccess.searchSessions. plan_entry. }
    known_tool tool "get_session_details".
    { unfold FullAccess.getSessionDetails. plan_entry. }
    known_tool tool "get_session_events".
    { unfold FullAccess.getSessionEvents. plan_entry. }
    known_tool tool "aggregate_sessions".
    { unfold FullAccess.aggregateSessions. plan_entry. }
    known_tool tool "get_user_journey".
    { unfold FullAccess.getUserJourney. plan_entry. }
    known_tool tool "get_errors_issues".
    { unfold FullAccess.getErrorsIssues. plan_entry. }
    known_tool tool "get_funnel_analysis".
    { unfold FullAccess.getFunnelAnalysis. plan_entry. }
    known_tool tool "get_performance_metrics".
    { unfold FullAccess.getPerformanceMetrics. plan_entry. }
    known_tool tool "execute_custom_query".
    { unfold FullAccess.executeCustomQuery. plan_entry. }
    cbn. apply issued_nothing. reflexivity.
  - full_access_cases tool; cbn; apply issued_nothing; reflexivity.
Qed.

(** Symbolic execution of a handler body by unfolding the monad and
    branching on every truthiness test and on how the remote call settles. *)
Ltac unfold_monad :=
  unfold issued, result_of, try_catch, bind, or_else, api_get, api_post,
    request, getProp, destructure, ToString, ApiKey.new_Date_getTime,
    Date_now, ret, throw in *.

Ltac branch :=
  match goal with
  | |- context [match toString ?v with _ => _ end] =>
      destruct (toString v) eqn:?
  | |- context [if truthy ?v then _ else _] => destruct (truthy v) eqn:?
  | |- context [negb (truthy ?v)] => destruct (truthy v) eqn:?
  | |- context [match remote ?w ?h ?r with _ => _ end] =>
      destruct (remote w h r) eqn:?
  end.

Ltac execute := unfold_monad; cbn; repeat (branch; cbn).

Ltac settle_issued :=
  first [ apply skipn_length_app
        | apply issued_nothing; reflexivity ].

Lemma api_key_issued key getTime tool args w :
  issued (ApiKey.handle key getTime tool args) w
  = option_list (api_key_plan key getTime tool args
                   (start_reading w) (end_reading args w)).
Proof.
  unfold ApiKey.handle, api_key_plan, date_param, start_reading, end_reading.
  fold on_error. rewrite catch_issued.
  known_tool tool "list_projects".
  { unfold ApiKey.listProjects. execute; settle_issued. }
  destruct args as [fields|].
  - known_tool tool "get_user_sessions".
    { unfold ApiKey.getUserSessions. execute; settle_issued. }
    known_tool tool "search_sessions".
    { unfold ApiKey.searchSessions. execute; settle_issued. }
    known_tool tool "get_session_details".
    { unfold ApiKey.getSessionDetails. execute; settle_issued. }
    known_tool tool "get_session_events".
    { unfold ApiKey.getSessionEvents. execute; settle_issued. }
    known_tool tool "aggregate_sessions".
    { unfold ApiKey.aggregateSessions. execute; settle_issued. }
    known_tool tool "get_user_journey".
    { unfold ApiKey.getUserJourney. execute; settle_issued. }
    known_tool tool "get_errors_issues".
    { unfold ApiKey.getErrorsIssues. execute; settle_issued. }
    known_tool tool "get_funnel_analysis".
    { unfold ApiKey.getFunnelAnalysis. execute; settle_issued. }
    known_tool tool "get_performance_metrics".
    { unfold ApiKey.getPerformanceMetrics. execute; settle_issued. }
    known_tool tool "execute_custom_query".
    { unfold ApiKey.executeCustomQuery. execute; settle_issued. }
    execute; settle_issued.
  - repeat match goal with
           | |- context [String.eqb tool ?s] => destruct (String.eqb tool s)
           end; execute; settle_issued.
Qed.

(** ** One dispatcher, two authentication modes *)

Lemma handle_shape s tool args w :
  exists rs,
    extends w (snd (handle s tool args w)) rs /\
    call_shape (declared (registry s) tool) tool w
      (fst (handle s tool args w)) rs.
Proof.
  destruct s; [apply full_access_shape | apply api_key_shape].
Qed.

Lemma handle_issued s tool args w :
  issued (handle s tool args) w
  = option_list (plan s tool args (start_reading w) (end_reading args w)).
Proof.
  destruct s; [apply full_access_issued | apply api_key_issued].
Qed.

(** The shape of a run, read off the result and the requests sent. *)
Lemma handle_cases s tool args w :
  call_shape (declared (registry s) tool) tool w
    (result_of (handle s tool args) w) (issued (handle s tool args) w).
Proof.
  destruct (handle_shape s tool args w) as (rs & Hext & Hshape).
  rewrite (extends_issued _ _ _ Hext). exact Hshape.
Qed.

(** ** The claims *)

(** C1.  For every tool name of the registry the dispatcher returns a
    result and does not throw, whatever the arguments and however the remote
    call settles; for every other name it throws the method-not-found fault;
    and no other error ever leaves the dispatcher.  This holds in both
    authentication modes. *)
Theorem handle_returns_or_method_not_found s tool args w :
  (In tool (map name (registry s)) ->
   exists r, result_of (handle s tool args) w = Returned r) /\
  (~ In tool (map name (registry s)) ->
   result_of (handle s tool args) w
   = Thrown (McpError MethodNotFound ("Unknown tool: " ++ tool))) /\
  (forall error,
     result_of (handle s tool args) w = Thrown error ->
     error = McpError MethodNotFound ("Unknown tool: " ++ tool) /\
     ~ In tool (map name (registry s))).
Proof.
  pose proof (handle_cases s tool args w) as Hshape.
  pose proof (declared_In (registry s) tool) as [Hin Hdecl].
  destruct Hshape as [Hk | t Hk | r Hk].
  - assert (Hnot : ~ In tool (map name (registry s))).
    { intro H. apply Hdecl in H. congruence. }
    split; [tauto|]. split; [reflexivity|].
    intros error [= <-]. split; [reflexivity | exact Hnot].
  - split; [eauto|]. split; [tauto | discriminate].
  - split; [eauto|]. split; [tauto | discriminate].
Qed.

Lemma handle_returns_or_method_not_found_witness :
  (exists r,
     result_of (handle (full_access "proj") "search_sessions" None)
       (steady_world 0 (Rejected None)) = Returned r) /\
  result_of (handle (api_key "key" (fun _ => VNaN)) "replay_session" (Some []))
    (steady_world 0 (Resolved JNull))
  = Thrown (McpError MethodNotFound "Unknown tool: replay_session").
Proof.
  split.
  - apply (handle_returns_or_method_not_found
             (full_access "proj") "search_sessions" None
             (steady_world 0 (Rejected None))).
    cbn. auto.
  - apply (handle_returns_or_method_not_found
             (api_key "key" (fun _ => VNaN)) "replay_session" (Some [])
             (steady_world 0 (Resolved JNull))).
    cbn. intuition discriminate.
Defined.

(** C8.  One call of the dispatcher sends at most one request to the remote
    service, for every mode, tool name, argument value and behaviour of the
    remote service: there is no fan-out, no batching, and a rejected request
    is not sent again. *)
Theorem at_most_one_request s tool args w :
  (List.length (issued (handle s tool args) w) <= 1)%nat.
Proof.
  destruct (handle_cases s tool args w); simpl; lia.
Qed.

(** C10.  Every result the dispatcher returns, whether it reports a remote
    response, a failure or an unsupported operation, holds exactly one
    content item, of type text. *)
Theorem result_is_single_text s tool args w r :
  result_of (handle s tool args) w = Returned r ->
  exists t, content r = [ {| type := "text"; text := t |} ].
Proof.
  intro Hr. pose proof (handle_cases s tool args w) as Hshape.
  rewrite Hr in Hshape.
  inversion Hshape as [ | t Hk Ht | q Hk Ht ]; subst.
  - exists t. reflexivity.
  - destruct (remote w (sent w) q); cbn; eauto.
Qed.

Lemma result_is_single_text_witness :
  exists t,
    content (single_text "Error: Unknown error occurred")
    = [ {| type := "text"; text := t |} ].
Proof.
  apply (result_is_single_text (full_access "proj") "get_errors_issues"
           (Some [("minOccurrences", JNum 2)])
           (steady_world 1700000000000 (Rejected (Some EmptyString)))).
  reflexivity.
Defined.

(** C5.  When the request of a call is rejected, the dispatcher does not
    throw: it returns a result whose text is "Error: " followed by the
    error's message, and reports an unknown error when the message is
    missing or empty.  This holds for every tool that sends a request, in
    both modes. *)
Theorem rejection_becomes_error_text s tool args w r message :
  issued (handle s tool args) w = [r] ->
  remote w (sent w) r = Rejected message ->
  exists t,
    result_of (handle s tool args) w = Returned (single_text t) /\
    (forall m, message = Some m -> m <> EmptyString -> t = "Error: " ++ m) /\
    (message = None \/ message = Some EmptyString ->
     t = "Error: Unknown error occurred").
Proof.
  intros Hsent Hrej. pose proof (handle_cases s tool args w) as Hshape.
  rewrite Hsent in Hshape.
  inversion Hshape as [ | | q Hk Hres Hq ]; subst.
  rewrite Hrej. cbn. eexists. split; [reflexivity|]. split.
  - intros m -> Hm. destruct m; [contradiction | reflexivity].
  - intros [-> | ->]; reflexivity.
Qed.

Lemma rejection_becomes_error_text_witness :
  exists t,
    result_of (handle (full_access "proj") "get_session_details"
                 (Some [("sessionId", JStr "abc")]))
      (steady_world 1700000000000 (Rejected (Some "ECONNRESET")))
    = Returned (single_text t) /\
    (forall m, Some "ECONNRESET" = Some m -> m <> EmptyString ->
               t = "Error: " ++ m) /\
    (Some "ECONNRESET" = None \/ Some "ECONNRESET" = Some EmptyString ->
     t = "Error: Unknown error occurred").
Proof.
  apply (rejection_becomes_error_text (full_access "proj") "get_session_details"
           (Some [("sessionId", JStr "abc")])
           (steady_world 1700000000000 (Rejected (Some "ECONNRESET")))
           {| method := GET; path := "/v1/projects/proj/sessions/abc";
              payload := None |}
           (Some "ECONNRESET")).
  - reflexivity.
  - reflexivity.
Defined.

(** C2, as stated, fails when the clock advances during the call: the two
    default dates come from two readings of the clock, so with a clock that
    ticks one millisecond between them the request has a start date of
    2023-11-07T22:13:20.000Z and an end date of 2023-11-14T22:13:20.001Z, and
    no single call time [now] gives both [now] minus seven days and [now]. *)
Lemma search_sessions_ticking_clock :
  issued (FullAccess.handle "proj" "search_sessions" (Some []))
    (ticking_world 1700000000000 (Resolved JNull))
  = [ default_search_request "proj" 1700000000000 1700000000001 ]
  /\ ~ (exists now,
          issued (FullAccess.handle "proj" "search_sessions" (Some []))
            (ticking_world 1700000000000 (Resolved JNull))
          = [ default_search_request "proj" now now ]).
Proof.
  assert (Hrun :
            issued (FullAccess.handle "proj" "search_sessions" (Some []))
              (ticking_world 1700000000000 (Resolved JNull))
            = [ default_search_request "proj" 1700000000000 1700000000001 ])
    by (rewrite full_access_issued; reflexivity).
  split; [exact Hrun|].
  intros [now Hnow]. rewrite Hrun in Hnow.
  unfold default_search_request in Hnow.
  injection Hnow as Hstart Hend.
  apply toISOString_same_millis in Hstart.
  apply toISOString_same_millis in Hend.
  unfold day in Hstart. Z.div_mod_to_equations. lia.
Qed.

(** C2, amended.  In the full-access mode, [search_sessions] called with an
    empty argument object sends exactly one request: a POST to the project's
    search path whose body has [startDate] equal to the first clock reading
    of the call minus seven days and [endDate] equal to the next clock
    reading, both in ISO format, no filters, [limit] 50, [offset] 0 and the
    sort order [{field: startedAt, order: desc}].  The range is seven days
    plus the time that passed between the two readings. *)
Theorem search_sessions_default_request pid w :
  issued (FullAccess.handle pid "search_sessions" (Some [])) w
  = [ {| method := POST;
         path := "/v1/projects/" ++ pid ++ "/sessions/search";
         payload :=
           Some [("startDate",
                  VJson (JStr (toISOString (clock w (reads w) - 7 * day))));
                 ("endDate",
                  VJson (JStr (toISOString (clock w (S (reads w))))));
                 ("filters", VJson (JArr []));
                 ("limit", VJson (JNum 50));
                 ("offset", VJson (JNum 0));
                 ("sort", VJson (JObj [("field", JStr "startedAt");
                                       ("order", JStr "desc")]))] |} ].
Proof. rewrite full_access_issued. reflexivity. Qed.

(** C4.  In the full-access mode, [get_session_details] passes the remote
    body through: for every arguments value, whenever the call sends its
    request and the remote service resolves it with the body [B], the result
    is the single text [JSON.stringify(B, null, 2)], whatever [B] is: the
    body is neither reshaped, filtered nor validated.  The request is sent
    for every argument object whose session identifier converts to text
    (a missing one included), and is the GET of that session. *)
Theorem session_details_pass_through pid args w :
  (forall r B,
     issued (FullAccess.handle pid "get_session_details" args) w = [r] ->
     remote w (sent w) r = Resolved B ->
     result_of (FullAccess.handle pid "get_session_details" args) w
     = Returned {| content := [ {| type := "text";
                                   text := JSON_stringify B |} ] |})
  /\ (forall fields sessionId,
        args = Some fields ->
        toString (property "sessionId" fields) = Some sessionId ->
        issued (FullAccess.handle pid "get_session_details" args) w
        = [ {| method := GET;
               path := "/v1/projects/" ++ pid ++ "/sessions/" ++ sessionId;
               payload := None |} ]).
Proof.
  split.
  - intros r B Hsent Hres.
    pose proof (handle_cases (full_access pid) "get_session_details"
                  args w) as Hshape.
    cbn [handle registry] in Hshape. rewrite Hsent in Hshape.
    inversion Hshape as [ | | q Hk Hresult Hq ]; subst.
    rewrite Hres. reflexivity.
  - intros fields sessionId -> Hid. rewrite full_access_issued.
    unfold full_access_plan. select_tool. rewrite Hid. reflexivity.
Qed.

Lemma session_details_pass_through_witness :
  result_of (FullAccess.handle "proj" "get_session_details"
               (Some [("sessionId", JStr "abc")]))
    (steady_world 1700000000000 (Resolved (JObj [("total", JNum 3)])))
  = Returned {| content := [ {| type := "text";
                  text := "{" ++ nl ++ "  " ++ dquote ++ "total" ++ dquote
                              ++ ": 3" ++ nl ++ "}" |} ] |}.
Proof.
  apply (proj1 (session_details_pass_through "proj"
                  (Some [("sessionId", JStr "abc")])
                  (steady_world 1700000000000
                     (Resolved (JObj [("total", JNum 3)]))))
           {| method := GET; path := "/v1/projects/proj/sessions/abc";
              payload := None |}
           (JObj [("total", JNum 3)])).
  - reflexivity.
  - reflexivity.
Defined.




(** C6, as stated, fails in the full-access mode: [get_user_journey] called
    without dates sends [startDate] and [endDate] undefined, so no default
    range, of seven days or of thirty, is applied there. *)
Lemma user_journey_full_access_no_default :
  let r := {| method := GET;
              path := "/v1/projects/proj/users/u1/journey";
              payload := Some [("startDate", VUndefined);
                               ("endDate", VUndefined);
                               ("includeEvents", VUndefined)] |} in
  issued (handle (full_access "proj") "get_user_journey"
            (Some [("userId", JStr "u1")]))
    (steady_world 1700000000000 (Resolved JNull)) = [r]
  /\ ~ (exists date, carries r "startDate" (VJson date))
  /\ ~ (exists date, carries r "endDate" (VJson date)).
Proof.
  cbn zeta. split; [reflexivity|].
  split; intros (date & body & [= <-] & Hin); cbn in Hin;
    repeat (destruct Hin as [[=] | Hin]); contradiction.
Qed.

(** C6, amended.  For [get_user_journey] with a [userId] that converts to
    text: in the API-key mode, when the dates that are given convert, one GET
    is sent for the user's sessions, in which a missing (or falsy)
    [startDate] is replaced by the clock reading taken for it minus thirty
    days and a missing (or falsy) [endDate] by the clock reading taken for
    it, both in milliseconds, and a date that is given is converted by
    [getTime]; in the full-access mode no default is applied, and
    [startDate], [endDate] and [includeEvents] are forwarded as they are,
    undefined when missing. *)
Theorem user_journey_date_defaults key getTime pid fields w userId :
  toString (property "userId" fields) = Some userId ->
  (date_converts (property "startDate" fields) = true ->
   date_converts (property "endDate" fields) = true ->
   issued (ApiKey.handle key getTime "get_user_journey" (Some fields)) w
   = [ {| method := GET;
          path := "/api/v1/" ++ key ++ "/users/" ++ userId ++ "/sessions";
          payload :=
            Some [("start_date",
                   if truthy (property "startDate" fields)
                   then getTime (property "startDate" fields)
                   else VJson (JNum (clock w (reads w) - 30 * day)));
                  ("end_date",
                   if truthy (property "endDate" fields)
                   then getTime (property "endDate" fields)
                   else VJson (JNum (clock w
                                       (if truthy (property "startDate" fields)
                                        then reads w
                                        else S (reads w)))))] |} ])
  /\ issued (FullAccess.handle pid "get_user_journey" (Some fields)) w
     = [ {| method := GET;
            path := "/v1/projects/" ++ pid ++ "/users/" ++ userId ++ "/journey";
            payload :=
              Some [("startDate", property "startDate" fields);
                    ("endDate", property "endDate" fields);
                    ("includeEvents", property "includeEvents" fields)] |} ].
Proof.
  intro Hid. split.
  - unfold date_converts, converts. intros Hstart Hend.
    rewrite api_key_issued.
    unfold api_key_plan, date_param, start_reading, end_reading.
    select_tool. rewrite Hid.
    destruct (truthy (property "startDate" fields));
      destruct (truthy (property "endDate" fields));
      destruct (toString (property "startDate" fields));
      destruct (toString (property "endDate" fields));
      try discriminate Hstart; try discriminate Hend; reflexivity.
  - rewrite full_access_issued. unfold full_access_plan. select_tool.
    rewrite Hid. reflexivity.
Qed.

Lemma user_journey_date_defaults_witness :
  issued (ApiKey.handle "key" (fun _ => VNaN) "get_user_journey"
            (Some [("userId", JStr "u1")]))
    (ticking_world 1700000000000 (Resolved JNull))
  = [ {| method := GET;
         path := "/api/v1/key/users/u1/sessions";
         payload := Some [("start_date", VJson (JNum 1697408000000));
                          ("end_date", VJson (JNum 1700000000001))] |} ].
Proof.
  apply (proj1 (user_journey_date_defaults "key" (fun _ => VNaN) "proj"
                  [("userId", JStr "u1")]
                  (ticking_world 1700000000000 (Resolved JNull)) "u1"
                  eq_refl)).
  - reflexivity.
  - reflexivity.
Defined.

(** C7, as stated, fails: a falsy value that is present is replaced by the
    default ([limit] 0 by 50, [minOccurrences] 0 by 1), and the API-key
    server drops the [eventTypes] given to [get_session_events]. *)
Lemma falsy_argument_replaced_by_default :
  let w := steady_world 1700000000000 (Resolved JNull) in
  (exists r,
     issued (handle (full_access "proj") "search_sessions"
               (Some [("limit", JNum 0)])) w = [r]
     /\ carries r "limit" (VJson (JNum 50))
     /\ ~ carries r "limit" (VJson (JNum 0)))
  /\ (exists r,
        issued (handle (full_access "proj") "get_errors_issues"
                  (Some [("minOccurrences", JNum 0)])) w = [r]
        /\ carries r "minOccurrences" (VJson (JNum 1))
        /\ ~ carries r "minOccurrences" (VJson (JNum 0)))
  /\ issued (handle (api_key "key" (fun _ => VNaN)) "get_session_events"
               (Some [("sessionId", JStr "s1");
                      ("eventTypes", JArr [JStr "CLICK"])])) w
     = [ {| method := GET; path := "/api/v1/key/sessions/s1/events";
            payload := None |} ].
Proof.
  cbn zeta. split; [|split; [|reflexivity]].
  - eexists. split; [reflexivity|]. split.
    + eexists. split; [reflexivity|]. cbn. auto 10.
    + intros (body & [= <-] & Hin). cbn in Hin.
      repeat (destruct Hin as [[=] | Hin]); contradiction.
  - eexists. split; [reflexivity|]. split.
    + eexists. split; [reflexivity|]. cbn. auto 10.
    + intros (body & [= <-] & Hin). cbn in Hin.
      repeat (destruct Hin as [[=] | Hin]); contradiction.
Qed.

Ltac name_cases H :=
  cbn in H;
  repeat match type of H with
         | context [String.eqb ?tool ?s] =>
             is_var tool; known_tool tool s; cbn in H
         end;
  try discriminate H.

Lemma filled_truthy tool fields t_start t_end k :
  truthy (property k fields) = true ->
  filled tool fields t_start t_end k = property k fields.
Proof.
  intro H. unfold filled, value_or. rewrite H.
  destruct (default_rule_of tool k); reflexivity.
Qed.

(** C7, amended.  In the full-access mode a default is filled for a field
    that is missing or falsy, not only for a missing one.  For every tool of
    the registry and every argument object whose path identifier converts
    to text, the one request that is sent has exactly the payload fields of
    the tool, and each field holds: the caller's value when that is truthy;
    for a field without a default, the caller's value whatever it is
    (undefined when missing); for a field with a fixed default, that default
    when the caller's value is missing or falsy; for [startDate], the ISO
    date of the first clock reading of the call minus seven days, and for
    [endDate] the ISO date of the clock reading taken for it, when the
    caller's value is missing or falsy. *)
Theorem defaults_fill_falsy_arguments pid tool fields w :
  declared FullAccess.tools tool = true ->
  identifier_converts tool fields = true ->
  exists r,
    issued (FullAccess.handle pid tool (Some fields)) w = [r]
    /\ payload r
       = option_map
           (map (fun k =>
                   (k, filled tool fields
                         (clock w (reads w))
                         (clock w (if truthy (property "startDate" fields)
                                   then reads w else S (reads w)))
                         k)))
           (payload_keys tool)
    /\ (forall keys k,
          payload_keys tool = Some keys -> In k keys ->
          truthy (property k fields) = true ->
          carries r k (property k fields)).
Proof.
  intros Hknown Hid.
  assert (Hrun :
            exists r,
              issued (FullAccess.handle pid tool (Some fields)) w = [r]
              /\ payload r
                 = option_map
                     (map (fun k =>
                             (k, filled tool fields
                                   (clock w (reads w))
                                   (clock w
                                      (if truthy (property "startDate" fields)
                                       then reads w else S (reads w)))
                                   k)))
                     (payload_keys tool)).
  { rewrite full_access_issued.
    unfold full_access_plan, start_reading, end_reading.
    unfold declared in Hknown. name_cases Hknown;
      unfold identifier_converts, converts in Hid; cbn in Hid;
      try (destruct (toString (property _ fields)); [|discriminate Hid]);
      eexists; (split; [reflexivity|]); reflexivity. }
  destruct Hrun as (r & Hsent & Hpayload).
  exists r. split; [exact Hsent|]. split; [exact Hpayload|].
  intros keys k Hkeys Hin Htrue. unfold carries.
  rewrite Hpayload, Hkeys. cbn [option_map]. eexists. split; [reflexivity|].
  rewrite <- (filled_truthy tool fields
                (clock w (reads w))
                (clock w (if truthy (property "startDate" fields)
                          then reads w else S (reads w))) k Htrue).
  apply (in_map (fun k0 =>
                   (k0, filled tool fields (clock w (reads w))
                          (clock w (if truthy (property "startDate" fields)
                                    then reads w else S (reads w))) k0))).
  exact Hin.
Qed.

Lemma defaults_fill_falsy_arguments_witness :
  exists r,
    issued (FullAccess.handle "proj" "get_errors_issues"
              (Some [("minOccurrences", JNum 0); ("groupBy", JStr "url")]))
      (ticking_world 1700000000000 (Resolved JNull)) = [r]
    /\ payload r
       = Some [("startDate", VJson (JStr "2023-11-07T22:13:20.000Z"));
               ("endDate", VJson (JStr "2023-11-14T22:13:20.001Z"));
               ("errorTypes", VJson (JArr []));
               ("minOccurrences", VJson (JNum 1));
               ("groupBy", VJson (JStr "url"))].
Proof.
  destruct (defaults_fill_falsy_arguments "proj" "get_errors_issues"
              [("minOccurrences", JNum 0); ("groupBy", JStr "url")]
              (ticking_world 1700000000000 (Resolved JNull))
              eq_refl eq_refl) as (r & Hsent & Hpayload & _).
  exists r. split; [exact Hsent|]. rewrite Hpayload. reflexivity.
Defined.

Ltac tool_tests tool :=
  repeat match goal with
         | |- context [String.eqb tool ?s] => destruct (String.eqb tool s)
         end.

Lemma plan_shape_time_free s tool args t1 t2 t1' t2' :
  map shape_of (option_list (plan s tool args t1 t2))
  = map shape_of (option_list (plan s tool args t1' t2')).
Proof.
  destruct s as [pid | key getTime]; unfold plan.
  - unfold full_access_plan. destruct args as [fields|]; [|reflexivity].
    tool_tests tool; try reflexivity;
      destruct (toString (property _ fields)); reflexivity.
  - unfold api_key_plan, date_param.
    destruct (String.eqb tool "list_projects"); [reflexivity|].
    destruct args as [fields|]; [|reflexivity].
    tool_tests tool; try reflexivity;
      try destruct (truthy (property "userId" fields)); try reflexivity;
      destruct (toString (property _ fields)); try reflexivity;
      destruct (truthy (property "startDate" fields));
      destruct (truthy (property "endDate" fields));
      try destruct (toString (property "startDate" fields));
      try destruct (toString (property "endDate" fields));
      reflexivity.
Qed.

(** C9.  The dispatcher keeps no state from one call to the next: the
    request a call sends has the same method, path and payload, time-derived
    fields apart, in whatever world the call is made.  In particular a second
    identical call, made in the world the first one left behind, sends a
    request of the same shape as the first, and of the same shape as it would
    have sent had the first call not happened.  The time-derived fields
    depend on the clock readings of the call only: with equal readings the
    requests are equal. *)
Theorem request_shape_independent_of_history s tool args w :
  map shape_of (issued (handle s tool args) (snd (handle s tool args w)))
  = map shape_of (issued (handle s tool args) w)
  /\ (forall w',
        map shape_of (issued (handle s tool args) w')
        = map shape_of (issued (handle s tool args) w))
  /\ (forall w',
        start_reading w' = start_reading w ->
        end_reading args w' = end_reading args w ->
        issued (handle s tool args) w' = issued (handle s tool args) w).
Proof.
  assert (H : forall w1 w2,
             map shape_of (issued (handle s tool args) w1)
             = map shape_of (issued (handle s tool args) w2)).
  { intros w1 w2. rewrite !handle_issued. apply plan_shape_time_free. }
  split; [apply H|]. split; [intro w'; apply H|].
  intros w' Hstart Hend. rewrite !handle_issued, Hstart, Hend. reflexivity.
Qed.

(** ** Further properties of the dispatcher *)

(** X1.  When the request of a call is resolved with the body [B], the
    result is the single text [JSON.stringify(B, null, 2)]: this holds for
    every tool that sends a request, in both modes. *)
Theorem resolution_becomes_pretty_json s tool args w r B :
  issued (handle s tool args) w = [r] ->
  remote w (sent w) r = Resolved B ->
  result_of (handle s tool args) w
  = Returned {| content := [ {| type := "text"; text := JSON_stringify B |} ] |}.
Proof.
  intros Hsent Hres. pose proof (handle_cases s tool args w) as Hshape.
  rewrite Hsent in Hshape.
  inversion Hshape as [ | | q Hk Hresult Hq ]; subst.
  rewrite Hres. reflexivity.
Qed.

Lemma resolution_becomes_pretty_json_witness :
  result_of (handle (api_key "key" (fun _ => VNaN)) "list_projects" None)
    (steady_world 1700000000000 (Resolved (JArr [JStr "shop"])))
  = Returned {| content := [ {| type := "text";
                  text := JSON_stringify (JArr [JStr "shop"]) |} ] |}.
Proof.
  apply (resolution_becomes_pretty_json
           (api_key "key" (fun _ => VNaN)) "list_projects" None
           (steady_world 1700000000000 (Resolved (JArr [JStr "shop"])))
           {| method := GET; path := "/api/v1/projects"; payload := None |}
           (JArr [JStr "shop"])).
  - reflexivity.
  - reflexivity.
Defined.

Ltac name_tests H :=
  unfold declared in H; cbn in H;
  repeat (apply orb_false_elim in H; destruct H as [? H]).

Ltac rewrite_name_tests :=
  repeat match goal with
         | H : String.eqb _ _ = false |- _ => rewrite H; clear H
         end.

(** X2.  A call that names no tool of the registry changes nothing: it
    throws the method-not-found fault without reading the clock and without
    sending a request. *)
Theorem unknown_tool_leaves_world s tool args w :
  declared (registry s) tool = false ->
  handle s tool args w
  = (Thrown (McpError MethodNotFound ("Unknown tool: " ++ tool)), w).
Proof.
  intro H. destruct s as [pid | key getTime]; name_tests H;
    unfold handle, FullAccess.handle, ApiKey.handle, try_catch;
    rewrite_name_tests; reflexivity.
Qed.

Lemma unknown_tool_leaves_world_witness :
  handle (full_access "proj") "list_projects" (Some [])
    (steady_world 1700000000000 (Resolved JNull))
  = (Thrown (McpError MethodNotFound "Unknown tool: list_projects"),
     steady_world 1700000000000 (Resolved JNull)).
Proof.
  apply (unknown_tool_leaves_world (full_access "proj") "list_projects"
           (Some []) (steady_world 1700000000000 (Resolved JNull))).
  reflexivity.
Defined.

(** X3.  When the call request has no [arguments] member, every handler
    that reads its arguments fails before it sends anything: the caller gets
    an error text and the remote service is not contacted.  In the
    full-access mode these are all the tools. *)
Theorem missing_arguments_reported s tool w :
  reads_arguments s tool = true ->
  exists msg,
    result_of (handle s tool None) w = Returned (single_text ("Error: " ++ msg))
    /\ issued (handle s tool None) w = [].
Proof.
  intro H. destruct s as [pid | key getTime]; unfold reads_arguments in H;
    [unfold declared in H|]; name_cases H;
    (eexists; split;
     [ reflexivity
     | rewrite handle_issued; reflexivity ]).
Qed.

Lemma missing_arguments_reported_witness :
  exists msg,
    result_of (handle (full_access "proj") "get_session_details" None)
      (steady_world 1700000000000 (Resolved JNull))
    = Returned (single_text ("Error: " ++ msg))
    /\ issued (handle (full_access "proj") "get_session_details" None)
         (steady_world 1700000000000 (Resolved JNull)) = [].
Proof.
  apply (missing_arguments_reported (full_access "proj") "get_session_details"
           (steady_world 1700000000000 (Resolved JNull))).
  reflexivity.
Defined.

(** X4.  The full-access server checks no argument before it calls the
    remote service: for every tool of its registry and every argument
    object, even an empty one that lacks the required fields, exactly one
    request is sent, provided the identifier that goes into the path
    converts to text.  When it does not (an object with a key [toString]),
    the call sends nothing and returns an error text. *)
Theorem full_access_always_sends pid tool fields w :
  declared FullAccess.tools tool = true ->
  (identifier_converts tool fields = true ->
   exists r, issued (FullAccess.handle pid tool (Some fields)) w = [r])
  /\ (identifier_converts tool fields = false ->
      issued (FullAccess.handle pid tool (Some fields)) w = []
      /\ result_of (FullAccess.handle pid tool (Some fields)) w
         = Returned (single_text
                       "Error: Cannot convert object to primitive value")).
Proof.
  intro H. unfold declared in H.
  name_cases H; unfold identifier_converts, converts, path_identifier;
    select_tool; (split; intro Hid); try discriminate Hid;
    try solve [ rewrite full_access_issued; unfold full_access_plan;
                select_tool; eexists; reflexivity ].
  all: destruct (toString (property _ fields)) eqn:Hto; try discriminate Hid.
  all: try solve [ rewrite full_access_issued; unfold full_access_plan;
                   select_tool; rewrite Hto; eexists; reflexivity ].
  all: split;
    [ rewrite full_access_issued; unfold full_access_plan; select_tool;
      rewrite Hto; reflexivity
    | unfold FullAccess.handle; fold on_error; rewrite catch_result;
      select_tool; unfold result_of;
      unfold FullAccess.getSessionDetails, FullAccess.getSessionEvents,
        FullAccess.getUserJourney;
      rewrite run_destructure; cbv beta zeta; rewrite run_ToString, Hto;
      reflexivity ].
Qed.

Lemma full_access_always_sends_witness :
  exists r,
    issued (FullAccess.handle "proj" "get_funnel_analysis" (Some []))
      (steady_world 1700000000000 (Rejected None)) = [r].
Proof.
  apply (full_access_always_sends "proj" "get_funnel_analysis" []
           (steady_world 1700000000000 (Rejected None))).
  - reflexivity.
  - reflexivity.
Defined.

Lemma property_missing k fields :
  lookup k fields = None -> property k fields = VUndefined.
Proof. intro H. unfold property. rewrite H. reflexivity. Qed.

(** X5.  A missing identifier is sent as the text "undefined": without a
    [sessionId], [get_session_details] and [get_session_events] of the
    full-access server ask for the session named undefined, and without a
    [userId], [get_user_journey] asks for the user named undefined. *)
Theorem missing_identifier_sent_as_undefined pid fields w :
  (lookup "sessionId" fields = None ->
   issued (FullAccess.handle pid "get_session_details" (Some fields)) w
   = [ {| method := GET;
          path := "/v1/projects/" ++ pid ++ "/sessions/undefined";
          payload := None |} ]
   /\ issued (FullAccess.handle pid "get_session_events" (Some fields)) w
   = [ {| method := GET;
          path := "/v1/projects/" ++ pid ++ "/sessions/undefined/events";
          payload := Some [("eventTypes", property "eventTypes" fields);
                           ("startTime", property "startTime" fields);
                           ("endTime", property "endTime" fields)] |} ])
  /\ (lookup "userId" fields = None ->
      issued (FullAccess.handle pid "get_user_journey" (Some fields)) w
      = [ {| method := GET;
             path := "/v1/projects/" ++ pid ++ "/users/undefined/journey";
             payload := Some [("startDate", property "startDate" fields);
                              ("endDate", property "endDate" fields);
                              ("includeEvents",
                               property "includeEvents" fields)] |} ]).
Proof.
  split; intro Hmissing; rewrite !full_access_issued;
    unfold full_access_plan; select_tool; cbn [option_list];
    rewrite (property_missing _ _ Hmissing); try split; reflexivity.
Qed.

Lemma missing_identifier_sent_as_undefined_witness :
  issued (FullAccess.handle "proj" "get_session_details" (Some []))
    (steady_world 1700000000000 (Resolved JNull))
  = [ {| method := GET; path := "/v1/projects/proj/sessions/undefined";
         payload := None |} ].
Proof.
  apply (missing_identifier_sent_as_undefined "proj" []
           (steady_world 1700000000000 (Resolved JNull))).
  reflexivity.
Defined.

Ltac rewrite_agreed H fields :=
  repeat match goal with
         | |- context [property ?k fields] =>
             rewrite (H k) by (simpl; tauto)
         end.

(** X6.  Only the arguments that the registry entry of a tool declares can
    reach the remote service: two argument objects that agree on every
    declared property of the tool make the dispatcher send the same request,
    in both modes. *)
Theorem undeclared_arguments_ignored s tool fields fields' w :
  agree_on (declared_properties s tool) fields fields' ->
  issued (handle s tool (Some fields)) w
  = issued (handle s tool (Some fields')) w.
Proof.
  intro H. rewrite !handle_issued. unfold agree_on in H.
  destruct s as [pid | key getTime];
    unfold plan, full_access_plan, api_key_plan, end_reading;
    repeat match goal with
           | |- context [String.eqb tool ?s] => known_tool tool s
           end;
    try reflexivity;
    rewrite_agreed H fields; reflexivity.
Qed.

Lemma undeclared_arguments_ignored_witness :
  issued (handle (full_access "proj") "get_session_details"
            (Some [("sessionId", JStr "abc"); ("verbose", JBool true)]))
    (steady_world 1700000000000 (Resolved JNull))
  = issued (handle (full_access "proj") "get_session_details"
              (Some [("sessionId", JStr "abc")]))
      (steady_world 1700000000000 (Resolved JNull)).
Proof.
  apply (undeclared_arguments_ignored (full_access "proj") "get_session_details"
           [("sessionId", JStr "abc"); ("verbose", JBool true)]
           [("sessionId", JStr "abc")]
           (steady_world 1700000000000 (Resolved JNull))).
  intros k Hk. simpl in Hk. destruct Hk as [<- | []]. reflexivity.
Defined.

(** X7.  The API-key server looks at three arguments of the user-session
    tools ([userId], [startDate], [endDate]) and at the [sessionId] of
    [get_session_events] only.  Every other argument, though declared in
    the registry ([filters], [limit], [offset], [sort], [includeEvents],
    [eventTypes], [startTime], [endTime], and all arguments of the tools
    answered by a notice), has no effect on the request. *)
Theorem api_key_unread_arguments key getTime tool fields fields' w :
  agree_on (api_key_reads tool) fields fields' ->
  issued (ApiKey.handle key getTime tool (Some fields)) w
  = issued (ApiKey.handle key getTime tool (Some fields')) w.
Proof.
  intro H. rewrite !api_key_issued. unfold agree_on in H.
  unfold api_key_plan, end_reading.
  repeat match goal with
         | |- context [String.eqb tool ?s] => known_tool tool s
         end;
    try reflexivity;
    rewrite_agreed H fields; reflexivity.
Qed.

Lemma api_key_unread_arguments_witness :
  issued (ApiKey.handle "key" (fun _ => VNaN) "search_sessions"
            (Some [("userId", JStr "u1"); ("limit", JNum 5)]))
    (steady_world 1700000000000 (Resolved JNull))
  = issued (ApiKey.handle "key" (fun _ => VNaN) "search_sessions"
              (Some [("userId", JStr "u1"); ("limit", JNum 500)]))
      (steady_world 1700000000000 (Resolved JNull)).
Proof.
  apply (api_key_unread_arguments "key" (fun _ => VNaN) "search_sessions"
           [("userId", JStr "u1"); ("limit", JNum 5)]
           [("userId", JStr "u1"); ("limit", JNum 500)]
           (steady_world 1700000000000 (Resolved JNull))).
  intros k Hk. simpl in Hk.
  destruct Hk as [<- | [<- | [<- | []]]]; reflexivity.
Defined.

(** X8.  When the caller gives both dates (truthy [startDate] and
    [endDate]), the request does not depend on the time of the call: the
    same request is sent whatever the clock shows, in both modes. *)
Theorem explicit_dates_clock_free s tool fields w w' :
  truthy (property "startDate" fields) = true ->
  truthy (property "endDate" fields) = true ->
  issued (handle s tool (Some fields)) w
  = issued (handle s tool (Some fields)) w'.
Proof.
  intros Hstart Hend. rewrite !handle_issued.
  destruct s as [pid | key getTime];
    unfold plan, full_access_plan, api_key_plan, date_param, value_or;
    rewrite Hstart, Hend; tool_tests tool; reflexivity.
Qed.

Lemma explicit_dates_clock_free_witness :
  issued (handle (full_access "proj") "get_errors_issues"
            (Some [("startDate", JStr "2024-01-01T00:00:00.000Z");
                   ("endDate", JStr "2024-01-31T00:00:00.000Z")]))
    (steady_world 1700000000000 (Resolved JNull))
  = issued (handle (full_access "proj") "get_errors_issues"
              (Some [("startDate", JStr "2024-01-01T00:00:00.000Z");
                     ("endDate", JStr "2024-01-31T00:00:00.000Z")]))
      (steady_world 1800000000000 (Rejected None)).
Proof.
  apply (explicit_dates_clock_free (full_access "proj") "get_errors_issues"
           [("startDate", JStr "2024-01-01T00:00:00.000Z");
            ("endDate", JStr "2024-01-31T00:00:00.000Z")]
           (steady_world 1700000000000 (Resolved JNull))
           (steady_world 1800000000000 (Rejected None))).
  - reflexivity.
  - reflexivity.
Defined.

(** X9.  Some tools never use the time of the call, whatever the arguments:
    [get_session_details], [get_session_events], [get_user_journey] and
    [execute_custom_query] of the full-access server, and [list_projects],
    [get_user_sessions] and [get_session_events] of the API-key server send
    the same request in every world.  In particular [get_user_sessions]
    fills no default date, unlike the two tools that share its endpoint. *)
Theorem clockless_tools_send_same_request s tool args w w' :
  clockless s tool = true ->
  issued (handle s tool args) w = issued (handle s tool args) w'.
Proof.
  intro H. rewrite !handle_issued.
  destruct s as [pid | key getTime]; unfold clockless in H; name_cases H;
    destruct args as [fields|]; reflexivity.
Qed.

Lemma clockless_tools_send_same_request_witness :
  issued (handle (api_key "key" (fun _ => VNaN)) "get_user_sessions"
            (Some [("userId", JStr "u1")]))
    (steady_world 1700000000000 (Resolved JNull))
  = issued (handle (api_key "key" (fun _ => VNaN)) "get_user_sessions"
              (Some [("userId", JStr "u1")]))
      (steady_world 1800000000000 (Rejected None)).
Proof.
  apply (clockless_tools_send_same_request
           (api_key "key" (fun _ => VNaN)) "get_user_sessions"
           (Some [("userId", JStr "u1")])
           (steady_world 1700000000000 (Resolved JNull))
           (steady_world 1800000000000 (Rejected None))).
  reflexivity.
Defined.

Lemma starts_with_app a p s :
  starts_with (a ++ p) (a ++ s) = starts_with p s.
Proof.
  induction a as [|c a IH]; [reflexivity|].
  change (starts_with (String c (a ++ p)) (String c (a ++ s)) = starts_with p s).
  cbn [starts_with]. rewrite Ascii.eqb_refl. exact IH.
Qed.

(** X10.  Every request of the full-access server addresses the configured
    project: its path begins with "/v1/projects/", the project identifier
    and a slash, for every tool and every argument value. *)
Theorem full_access_paths_scoped_to_project pid tool args w r :
  In r (issued (FullAccess.handle pid tool args) w) ->
  starts_with ("/v1/projects/" ++ pid ++ "/") (path r) = true.
Proof.
  rewrite full_access_issued. unfold full_access_plan.
  destruct args as [fields|]; [|contradiction].
  tool_tests tool; try destruct (toString (property _ fields));
    cbn [option_list In]; try contradiction;
    intros [<- | []]; cbn [path]; rewrite !starts_with_app; reflexivity.
Qed.

Lemma full_access_paths_scoped_to_project_witness :
  starts_with ("/v1/projects/" ++ "proj" ++ "/")
    "/v1/projects/proj/sessions/abc" = true.
Proof.
  apply (full_access_paths_scoped_to_project "proj" "get_session_details"
           (Some [("sessionId", JStr "abc")])
           (steady_world 1700000000000 (Resolved JNull))
           {| method := GET; path := "/v1/projects/proj/sessions/abc";
              payload := None |}).
  left. reflexivity.
Defined.

(** X11.  The API-key server only reads: every request it sends is a GET
    whose path begins with "/api/v1/"; it never sends a POST and never a
    body. *)
Theorem api_key_sends_get_only key getTime tool args w r :
  In r (issued (ApiKey.handle key getTime tool args) w) ->
  method r = GET /\ starts_with "/api/v1/" (path r) = true.
Proof.
  rewrite api_key_issued. unfold api_key_plan.
  destruct (String.eqb tool "list_projects").
  - intros [<- | []]. split; reflexivity.
  - destruct args as [fields|]; [|contradiction].
    tool_tests tool; try destruct (truthy (property "userId" fields));
      try destruct (toString (property _ fields));
      try destruct (date_param getTime (property "startDate" fields) _);
      try destruct (date_param getTime (property "endDate" fields) _);
      cbn [option_list In]; try contradiction;
      intros [<- | []]; split; reflexivity.
Qed.

Lemma api_key_sends_get_only_witness :
  method {| method := GET; path := "/api/v1/key/sessions/s1/events";
            payload := None |} = GET
  /\ starts_with "/api/v1/"
       (path {| method := GET; path := "/api/v1/key/sessions/s1/events";
                payload := None |}) = true.
Proof.
  apply (api_key_sends_get_only "key" (fun _ => VNaN) "get_session_events"
           (Some [("sessionId", JStr "s1")])
           (steady_world 1700000000000 (Resolved JNull))).
  left. reflexivity.
Defined.

(** X12.  In the API-key mode, [search_sessions] with a truthy [userId]
    asks for that user's sessions.  When the [userId] and the dates that are
    given convert, one GET is sent on the user's sessions path; its
    [start_date] is the given start date in milliseconds, or the clock
    reading taken for it minus seven days when that date is missing or
    falsy, and its [end_date] is the given end date, or the clock reading
    taken for it. *)
Theorem api_key_search_sessions_window key getTime fields w userId :
  truthy (property "userId" fields) = true ->
  toString (property "userId" fields) = Some userId ->
  date_converts (property "startDate" fields) = true ->
  date_converts (property "endDate" fields) = true ->
  issued (ApiKey.handle key getTime "search_sessions" (Some fields)) w
  = [ {| method := GET;
         path := "/api/v1/" ++ key ++ "/users/" ++ userId ++ "/sessions";
         payload :=
           Some [("start_date",
                  if truthy (property "startDate" fields)
                  then getTime (property "startDate" fields)
                  else VJson (JNum (clock w (reads w) - 7 * day)));
                 ("end_date",
                  if truthy (property "endDate" fields)
                  then getTime (property "endDate" fields)
                  else VJson (JNum (clock w
                                      (if truthy (property "startDate" fields)
                                       then reads w
                                       else S (reads w)))))] |} ].
Proof.
  intros Huser Hid. unfold date_converts, converts. intros Hstart Hend.
  rewrite api_key_issued.
  unfold api_key_plan, date_param, start_reading, end_reading.
  select_tool. rewrite Huser, Hid.
  destruct (truthy (property "startDate" fields));
    destruct (truthy (property "endDate" fields));
    destruct (toString (property "startDate" fields));
    destruct (toString (property "endDate" fields));
    try discriminate Hstart; try discriminate Hend; reflexivity.
Qed.

Lemma api_key_search_sessions_window_witness :
  issued (ApiKey.handle "key" (fun _ => VNaN) "search_sessions"
            (Some [("userId", JStr "u1")]))
    (ticking_world 1700000000000 (Resolved JNull))
  = [ {| method := GET;
         path := "/api/v1/key/users/u1/sessions";
         payload := Some [("start_date", VJson (JNum 1699395200000));
                          ("end_date", VJson (JNum 1700000000001))] |} ].
Proof.
  apply (api_key_search_sessions_window "key" (fun _ => VNaN)
           [("userId", JStr "u1")]
           (ticking_world 1700000000000 (Resolved JNull)) "u1");
    reflexivity.
Defined.

(** X13.  In the API-key mode the three user-session tools share one
    endpoint and differ by their default dates only: when the caller gives a
    truthy [userId] and both dates, [search_sessions], [get_user_journey]
    and [get_user_sessions] send the same request. *)
Theorem user_session_tools_coincide key getTime fields w :
  truthy (property "userId" fields) = true ->
  truthy (property "startDate" fields) = true ->
  truthy (property "endDate" fields) = true ->
  issued (ApiKey.handle key getTime "search_sessions" (Some fields)) w
  = issued (ApiKey.handle key getTime "get_user_sessions" (Some fields)) w
  /\ issued (ApiKey.handle key getTime "get_user_journey" (Some fields)) w
  = issued (ApiKey.handle key getTime "get_user_sessions" (Some fields)) w.
Proof.
  intros Huser Hstart Hend. rewrite !api_key_issued.
  unfold api_key_plan, date_param. select_tool.
  rewrite Huser, Hstart, Hend. split; reflexivity.
Qed.

Lemma user_session_tools_coincide_witness :
  issued (ApiKey.handle "key" (fun _ => VJson (JNum 1)) "search_sessions"
            (Some [("userId", JStr "u1"); ("startDate", JStr "2024-01-01");
                   ("endDate", JStr "2024-01-02")]))
    (steady_world 1700000000000 (Resolved JNull))
  = issued (ApiKey.handle "key" (fun _ => VJson (JNum 1)) "get_user_sessions"
              (Some [("userId", JStr "u1"); ("startDate", JStr "2024-01-01");
                     ("endDate", JStr "2024-01-02")]))
      (steady_world 1700000000000 (Resolved JNull)).
Proof.
  apply (user_session_tools_coincide "key" (fun _ => VJson (JNum 1))
           [("userId", JStr "u1"); ("startDate", JStr "2024-01-01");
            ("endDate", JStr "2024-01-02")]
           (steady_world 1700000000000 (Resolved JNull)));
    reflexivity.
Defined.

Ltac distinct_names :=
  repeat (apply NoDup_cons;
          [ let H := fresh in
            intro H; cbn in H;
            repeat (destruct H as [H | H]; [discriminate H|]); exact H
          | ]);
  apply NoDup_nil.

Ltac declared_requirements :=
  repeat (apply Forall_cons;
          [ cbn; try exact I;
            let k := fresh in let H := fresh in
            intros k H; cbn in H |- *; tauto
          | ]);
  apply Forall_nil.

(** X14.  Both registries are well formed: no two tools share a name, and
    every field that an entry requires is one of the properties it
    declares. *)
Theorem registries_well_formed :
  well_formed FullAccess.tools /\ well_formed ApiKey.tools.
Proof.
  split; split.
  - cbn. distinct_names.
  - unfold FullAccess.tools. declared_requirements.
  - cbn. distinct_names.
  - unfold ApiKey.tools. declared_requirements.
Qed.

Lemma full_access_tools_declared_for_api_key tool :
  declared FullAccess.tools tool = true -> declared ApiKey.tools tool = true.
Proof.
  unfold declared. cbn. tool_tests tool; cbn; auto.
Qed.

(** X15.  Every tool that the full-access server serves is served by the
    API-key server too: whenever the full-access dispatcher returns a result
    for a tool name, the API-key dispatcher returns one for that name, for
    all arguments and in every world, and so never answers such a name with
    the method-not-found fault. *)
Theorem api_key_serves_full_access_tools
    pid key getTime tool args args' w w' r :
  result_of (FullAccess.handle pid tool args) w = Returned r ->
  exists r',
    result_of (ApiKey.handle key getTime tool args') w' = Returned r'.
Proof.
  intro Hr.
  assert (Hfull : declared FullAccess.tools tool = true).
  { pose proof (handle_cases (full_access pid) tool args w) as Hshape.
    cbn [handle registry] in Hshape. rewrite Hr in Hshape.
    inversion Hshape; assumption. }
  apply full_access_tools_declared_for_api_key in Hfull.
  pose proof (handle_cases (api_key key getTime) tool args' w') as Hshape.
  cbn [handle registry] in Hshape.
  destruct Hshape as [Hk | t Hk | q Hk]; [congruence | eauto | eauto].
Qed.

Lemma api_key_serves_full_access_tools_witness :
  exists r',
    result_of (ApiKey.handle "key" (fun _ => VNaN) "get_funnel_analysis" None)
      (steady_world 0 (Rejected None)) = Returned r'.
Proof.
  apply (api_key_serves_full_access_tools "proj" "key" (fun _ => VNaN)
           "get_funnel_analysis" (Some []) None
           (steady_world 1700000000000 (Resolved JNull))
           (steady_world 0 (Rejected None))
           (single_text (JSON_stringify JNull))).
  reflexivity.
Defined.

(** X16.  The base URL of the HTTP client is never empty: a variable
    [OPENREPLAY_API_URL] that is unset or empty gives the public endpoint,
    and any other value is used as it is.  Both servers agree. *)
Theorem base_url_never_empty env :
  baseURL (FullAccessStartup.api env) <> EmptyString
  /\ baseURL (ApiKeyStartup.api env) = baseURL (FullAccessStartup.api env)
  /\ (forall url,
        env "OPENREPLAY_API_URL" = Some url -> url <> EmptyString ->
        baseURL (FullAccessStartup.api env) = url)
  /\ (env "OPENREPLAY_API_URL" = None
      \/ env "OPENREPLAY_API_URL" = Some EmptyString ->
      baseURL (FullAccessStartup.api env) = "https://api.openreplay.com").
Proof.
  cbn [baseURL FullAccessStartup.api ApiKeyStartup.api].
  unfold FullAccessStartup.OPENREPLAY_API_URL, ApiKeyStartup.OPENREPLAY_API_URL.
  destruct (env "OPENREPLAY_API_URL") as [[|c url]|]; cbn [or_string].
  - repeat split; try discriminate. intros url [= <-] H. contradiction.
  - repeat split; try discriminate.
    + intros url' [= <-] _. reflexivity.
    + intros [H | H]; discriminate H.
  - repeat split; try discriminate.
Qed.

(** X17.  The API-key server takes its project from
    [OPENREPLAY_PROJECT_KEY] when that variable is set and not empty,
    whatever [OPENREPLAY_PROJECT_ID] holds; otherwise it falls back to the
    project of the full-access server. *)
Theorem project_key_fallback env :
  (forall k,
     env "OPENREPLAY_PROJECT_KEY" = Some k -> k <> EmptyString ->
     ApiKeyStartup.OPENREPLAY_PROJECT_KEY env = k)
  /\ (env "OPENREPLAY_PROJECT_KEY" = None
      \/ env "OPENREPLAY_PROJECT_KEY" = Some EmptyString ->
      ApiKeyStartup.OPENREPLAY_PROJECT_KEY env
      = FullAccessStartup.OPENREPLAY_PROJECT_ID env).
Proof.
  unfold ApiKeyStartup.OPENREPLAY_PROJECT_KEY,
    FullAccessStartup.OPENREPLAY_PROJECT_ID.
  split.
  - intros k -> Hk. destruct k; [contradiction | reflexivity].
  - intros [-> | ->]; reflexivity.
Qed.

(** X18.  A missing project identifier is not noticed at start-up: with
    [OPENREPLAY_PROJECT_ID] unset or empty, every tool of the full-access
    server still sends its request, addressed to the project with the empty
    name, whenever the identifier that goes into the path converts to
    text. *)
Theorem unconfigured_project_still_requests env tool fields w :
  env "OPENREPLAY_PROJECT_ID" = None
  \/ env "OPENREPLAY_PROJECT_ID" = Some EmptyString ->
  declared FullAccess.tools tool = true ->
  identifier_converts tool fields = true ->
  exists r,
    issued (FullAccessStartup.handle env tool (Some fields)) w = [r]
    /\ starts_with "/v1/projects//" (path r) = true.
Proof.
  intros Henv H Hid. unfold FullAccessStartup.handle.
  replace (FullAccessStartup.OPENREPLAY_PROJECT_ID env) with EmptyString
    by (unfold FullAccessStartup.OPENREPLAY_PROJECT_ID;
        destruct Henv as [-> | ->]; reflexivity).
  rewrite full_access_issued. unfold full_access_plan.
  unfold declared in H.
  name_cases H; unfold identifier_converts, converts, path_identifier in Hid;
    cbn in Hid;
    try (destruct (toString (property _ fields)); [|discriminate Hid]);
    eexists; (split; [reflexivity|]); reflexivity.
Qed.

Lemma unconfigured_project_still_requests_witness :
  exists r,
    issued (FullAccessStartup.handle (fun _ => None) "get_session_details"
              (Some [("sessionId", JStr "abc")]))
      (steady_world 1700000000000 (Resolved JNull)) = [r]
    /\ starts_with "/v1/projects//" (path r) = true.
Proof.
  apply (unconfigured_project_still_requests (fun _ => None)
           "get_session_details" [("sessionId", JStr "abc")]
           (steady_world 1700000000000 (Resolved JNull))).
  - left. reflexivity.
  - reflexivity.
  - reflexivity.
Defined.

Lemma base_url_never_empty_witness :
  baseURL (FullAccessStartup.api
             (fun v => if String.eqb v "OPENREPLAY_API_URL"
                       then Some "https://replay.example.org" else None))
  = "https://replay.example.org".
Proof.
  apply (base_url_never_empty
           (fun v => if String.eqb v "OPENREPLAY_API_URL"
                     then Some "https://replay.example.org" else None)).
  - reflexivity.
  - discriminate.
Defined.

Lemma project_key_fallback_witness :
  ApiKeyStartup.OPENREPLAY_PROJECT_KEY
    (fun v => if String.eqb v "OPENREPLAY_PROJECT_ID" then Some "shop" else None)
  = FullAccessStartup.OPENREPLAY_PROJECT_ID
      (fun v => if String.eqb v "OPENREPLAY_PROJECT_ID" then Some "shop" else None).
Proof.
  apply (project_key_fallback
           (fun v => if String.eqb v "OPENREPLAY_PROJECT_ID"
                     then Some "shop" else None)).
  left. reflexivity.
Defined.

(** X19.  The request table of the full-access server.  For every tool
    name, every arguments value and every world, the requests one call sends
    are exactly the entry of [full_access_plan]: nothing without an
    arguments object or for an unknown name, otherwise the one request of the
    tool, with its method, its path under the project, and its payload in
    which each defaulted field is the caller's value or, when that is
    missing or falsy, the default; the default start date is made from the
    first clock reading of the call and the default end date from the next
    one. *)
Theorem full_access_request_table pid tool args w :
  issued (FullAccess.handle pid tool args) w
  = option_list (full_access_plan pid tool args
                   (clock w (reads w))
                   (match args with
                    | Some fields =>
                        clock w (if truthy (property "startDate" fields)
                                 then reads w else S (reads w))
                    | None => clock w (reads w)
                    end)).
Proof. apply full_access_issued. Qed.

(** X20.  The request table of the API-key server.  For every tool name,
    every arguments value and every world, the requests one call sends are
    exactly the entry of [api_key_plan]: the project list for
    [list_projects]; the sessions of a user for [get_user_sessions] (no
    default dates), for [search_sessions] with a truthy [userId] (default
    window of seven days) and for [get_user_journey] (default window of
    thirty days), with given dates converted by [getTime]; the events of a
    session for [get_session_events]; and nothing for any other name. *)
Theorem api_key_request_table key getTime tool args w :
  issued (ApiKey.handle key getTime tool args) w
  = option_list (api_key_plan key getTime tool args
                   (clock w (reads w))
                   (match args with
                    | Some fields =>
                        clock w (if truthy (property "startDate" fields)
                                 then reads w else S (reads w))
                    | None => clock w (reads w)
                    end)).
Proof. apply api_key_issued. Qed.
